(** * script.js: the gallery renderer and the submission flow

    A shallow embedding of [src/script.js] (functions [addRice],
    [submitRice] and [createGitHubIssue]) and the properties of these
    functions that the specification states.

    Conventions.
    - A JavaScript string is carried as a Rocq [string] holding its UTF-8
      bytes (the arrows and the speech balloon of the card template are
      multi-byte).
    - The page is a record of the three elements that the script looks up by
      id ([riceGrid], [redditUrl], [submitBtn]); the HTML page itself is not
      part of the sources, so the three elements are taken to exist.
    - Effects (DOM writes, [alert], the call of [createGitHubIssue],
      [setTimeout]) are recorded, in program order, in a trace.
    - A computation either returns or throws; [M] is the corresponding
      state-and-exception monad. *)

From Stdlib Require Import String Ascii List Bool ZArith QArith Qabs Lia.
From Stdlib Require Import DecimalString.
Import ListNotations.

Local Close Scope Q_scope.
Local Open Scope list_scope.
Local Open Scope string_scope.
#[local] Set Warnings "-register-all".

(* ===================================================================== *)
(** ** Strings *)
(* ===================================================================== *)

Module Str.

(** The double quote and the line feed, which the texts below cannot hold
    literally. *)
Definition dq : ascii := ascii_of_nat 34.
Definition lf : ascii := ascii_of_nat 10.
Definition nl : string := String lf "".

Fixpoint map (f : ascii -> ascii) (s : string) : string :=
  match s with
  | EmptyString => EmptyString
  | String c r => String (f c) (map f r)
  end.

(** [q s] is [s] with every apostrophe turned into a double quote: the
    markup of [addRice] is written below with ['] where the source has the
    double quote (the source texts hold no apostrophe). *)
Definition q (s : string) : string :=
  map (fun c => if Ascii.eqb c "'"%char then dq else c) s.

Fixpoint rev_append (s acc : string) : string :=
  match s with
  | EmptyString => acc
  | String c r => rev_append r (String c acc)
  end.

Definition rev (s : string) : string := rev_append s "".

(** [drop_prefix p s] is [Some r] when [s = p ++ r]. *)
Fixpoint drop_prefix (p s : string) : option string :=
  match p with
  | EmptyString => Some s
  | String a p' =>
      match s with
      | EmptyString => None
      | String b s' => if Ascii.eqb a b then drop_prefix p' s' else None
      end
  end.

Definition startsWith (s p : string) : bool :=
  match drop_prefix p s with Some _ => true | None => false end.

(** [String.prototype.includes]: [sub] occurs in [s] at some position. *)
Fixpoint includes (s sub : string) : bool :=
  startsWith s sub ||
  match s with
  | EmptyString => false
  | String _ r => includes r sub
  end.

(** [c] occurs in [s]. *)
Fixpoint mem (c : ascii) (s : string) : bool :=
  match s with
  | EmptyString => false
  | String a r => Ascii.eqb a c || mem c r
  end.

Definition bytes (l : list nat) : string :=
  fold_right (fun n r => String (ascii_of_nat n) r) "" l.

(** The code points that [trim] removes (ECMAScript WhiteSpace and
    LineTerminator), as UTF-8 byte sequences:
    U+0009..U+000D, U+0020, U+00A0, U+1680, U+2000..U+200A, U+2028,
    U+2029, U+202F, U+205F, U+3000, U+FEFF. *)
Definition white_space : list string :=
  List.map bytes
    [ [9]; [10]; [11]; [12]; [13]; [32];
      [194; 160];
      [225; 154; 128];
      [226; 128; 128]; [226; 128; 129]; [226; 128; 130]; [226; 128; 131];
      [226; 128; 132]; [226; 128; 133]; [226; 128; 134]; [226; 128; 135];
      [226; 128; 136]; [226; 128; 137]; [226; 128; 138];
      [226; 128; 168]; [226; 128; 169]; [226; 128; 175];
      [226; 129; 159];
      [227; 128; 128];
      [239; 187; 191] ].

(** Remove one leading member of [ws], if there is one. *)
Fixpoint strip_one (ws : list string) (s : string) : option string :=
  match ws with
  | [] => None
  | w :: ws' =>
      match drop_prefix w s with
      | Some r => Some r
      | None => strip_one ws' s
      end
  end.

Fixpoint strip (ws : list string) (fuel : nat) (s : string) : string :=
  match fuel with
  | O => s
  | S fuel' =>
      match strip_one ws s with
      | Some r => strip ws fuel' r
      | None => s
      end
  end.

Definition trimStart (s : string) : string :=
  strip white_space (String.length s) s.

Definition trimEnd (s : string) : string :=
  rev (strip (List.map rev white_space) (String.length s) (rev s)).

(** [String.prototype.trim]. *)
Definition trim (s : string) : string := trimEnd (trimStart s).

(** A string is falsy exactly when it is empty. *)
Definition is_empty (s : string) : bool :=
  match s with EmptyString => true | _ => false end.

End Str.

(* ===================================================================== *)
(** ** JavaScript values, completions and string conversion *)
(* ===================================================================== *)

(** The values an argument of [addRice] can be.  [Number] carries an
    integer-valued number in the range where its text is plain decimal (the
    counts of an entry are integers).  An array is dense: it has no holes
    (which [forEach] would skip and [join] would render as empty strings),
    so its items are as many as its length; an [Object] is any
    other object, abstracted by what converting it to a string does:
    [Some s] when the conversion returns [s] ([Some "[object Object]"] for a
    plain object), [None] when it throws (an object without a callable
    [toString] and [valueOf]). *)
Inductive value : Type :=
| Undefined
| Null
| Boolean (b : bool)
| Number (n : Z)
| String_ (s : string)
| Symbol (description : string)
| Array (items : list value)
| Object (conv : option string).

(** A thrown JavaScript error: its constructor's name and its message. *)
Record js_error : Type := mkError { err_name : string; err_message : string }.

Definition TypeError (msg : string) : js_error := mkError "TypeError" msg.
(** [new Error(msg)]. *)
Definition Error_ (msg : string) : js_error := mkError "Error" msg.

(** How an evaluation ends: normally with a value, or abruptly by a throw. *)
Inductive completion (A : Type) : Type :=
| Normal (a : A)
| Throw (e : js_error).
Arguments Normal {A} a.
Arguments Throw {A} e.

Definition cbind {A B} (c : completion A) (k : A -> completion B) : completion B :=
  match c with
  | Normal a => k a
  | Throw e => Throw e
  end.

(** The text of an integer-valued number: plain decimal, which is what
    JavaScript prints below 10^21. *)
Definition Number_toString (n : Z) : string :=
  NilZero.string_of_int (Z.to_int n).

(** [Array.prototype.join] with the separator [","], over the conversion
    [item_text] of an item: an [undefined] or [null] item gives the empty
    string. *)
Definition Array_join (item_text : value -> completion string)
  : list value -> completion string :=
  fix join (l : list value) : completion string :=
    match l with
    | [] => Normal ""
    | x :: rest =>
        let item :=
          match x with
          | Undefined | Null => Normal ""
          | _ => item_text x
          end in
        match rest with
        | [] => item
        | _ :: _ =>
            cbind item (fun s =>
            cbind (join rest) (fun r =>
            Normal (s ++ "," ++ r)))
        end
    end.

(** The abstract operation ToString, which a template literal applies to
    each substitution.  An array converts through [join(",")]. *)
Fixpoint ToString (v : value) : completion string :=
  match v with
  | Undefined => Normal "undefined"
  | Null => Normal "null"
  | Boolean b => Normal (if b then "true" else "false")
  | Number n => Normal (Number_toString n)
  | String_ s => Normal s
  | Symbol _ => Throw (TypeError "Cannot convert a Symbol value to a string")
  | Array items => Array_join ToString items
  | Object (Some s) => Normal s
  | Object None => Throw (TypeError "Cannot convert object to primitive value")
  end.

(** [Array.isArray]. *)
Definition Array_isArray (v : value) : bool :=
  match v with Array _ => true | _ => false end.

(** [v === 'video'] and the like: strict equality with a string literal. *)
Definition strict_eq_string (v : value) (lit : string) : bool :=
  match v with String_ s => String.eqb s lit | _ => false end.

(* ===================================================================== *)
(** ** The page, the trace and the monad *)
(* ===================================================================== *)

(** An element made by [document.createElement]: its tag, its class and the
    markup assigned to its [innerHTML]. *)
Record element : Type := mkElement {
  tagName : string;
  className : string;
  innerHTML : string
}.

(** The three elements of the page that the script reads and writes:
    the children of [#riceGrid], the value of the input [#redditUrl], and
    the [disabled] flag and the label of the button [#submitBtn]. *)
Record page : Type := mkPage {
  riceGrid : list element;
  urlInput_value : string;
  submitBtn_disabled : bool;
  submitBtn_textContent : string
}.

(** What the script does to the world outside it, in program order. *)
Inductive event : Type :=
| Alert (msg : string)
| SetDisabled (b : bool)
| SetTextContent (s : string)
| SetValue (s : string)
| AppendChild (e : element)
| Call_createGitHubIssue (redditUrl : string)
| SetTimeout (delay : Z).

Record state : Type := mkState { dom : page; trace : list event }.

Definition M (A : Type) : Type := state -> completion A * state.

Definition ret {A} (a : A) : M A := fun s => (Normal a, s).

Definition bind {A B} (m : M A) (k : A -> M B) : M B :=
  fun s =>
    match m s with
    | (Normal a, s') => k a s'
    | (Throw e, s') => (Throw e, s')
    end.

(** Lift a pure evaluation that may throw. *)
Definition eval {A} (c : completion A) : M A := fun s => (c, s).

Declare Scope js_scope.
Delimit Scope js_scope with js.
Notation "x <- m ;; k" := (bind m (fun x => k))
  (at level 61, m at next level, right associativity) : js_scope.
Notation "m ;; k" := (bind m (fun _ => k))
  (at level 61, right associativity) : js_scope.
Local Open Scope js_scope.

Definition log (e : event) : M unit :=
  fun s => (Normal tt, mkState (dom s) (trace s ++ [e])%list).

Definition modify_dom (f : page -> page) : M unit :=
  fun s => (Normal tt, mkState (f (dom s)) (trace s)).

Definition read {A} (f : page -> A) : M A :=
  fun s => (Normal (f (dom s)), s).

(** [alert(msg)]. *)
Definition alert (msg : string) : M unit := log (Alert msg).

(** [urlInput.value]. *)
Definition get_value : M string := read urlInput_value.

(** [urlInput.value = v]. *)
Definition set_value (v : string) : M unit :=
  modify_dom (fun p => mkPage (riceGrid p) v (submitBtn_disabled p) (submitBtn_textContent p)) ;;
  log (SetValue v).

(** [submitBtn.disabled = b]. *)
Definition set_disabled (b : bool) : M unit :=
  modify_dom (fun p => mkPage (riceGrid p) (urlInput_value p) b (submitBtn_textContent p)) ;;
  log (SetDisabled b).

(** [submitBtn.textContent = t]. *)
Definition set_textContent (t : string) : M unit :=
  modify_dom (fun p => mkPage (riceGrid p) (urlInput_value p) (submitBtn_disabled p) t) ;;
  log (SetTextContent t).

(** [grid.appendChild(e)]: [e] becomes the last child. *)
Definition appendChild (e : element) : M unit :=
  modify_dom (fun p => mkPage (riceGrid p ++ [e])%list (urlInput_value p) (submitBtn_disabled p) (submitBtn_textContent p)) ;;
  log (AppendChild e).

(* ===================================================================== *)
(** ** What the browser makes of [innerHTML] *)
(* ===================================================================== *)

(** Assigning to [innerHTML] hands the markup to the browser's HTML parser.
    [HTML.elements] is the part of that parser that decides which elements
    exist: the tokenizer's path through the data, tag-open, tag-name and
    attribute states of the HTML standard, each start tag giving one element
    with its attributes (a duplicate attribute is dropped, names are
    lower-cased).

    Outside that path the model is coarser than a browser: character
    references are left undecoded (an attribute is reported with its raw
    text), a markup declaration is skipped up to the next [>], and no
    element switches the tokenizer to raw text.  The markup that [addRice]
    writes uses none of these. *)
Module HTML.

Record tag : Type := mkTag {
  closing : bool;
  name : string;
  attrs : list (string * string)
}.

Inductive tstate : Type :=
| Data
| TagOpen
| EndTagOpen
| TagName (t : tag)
| BeforeAttributeName (t : tag)
| AttributeName (t : tag) (n : string)
| AfterAttributeName (t : tag) (n : string)
| BeforeAttributeValue (t : tag) (n : string)
| AttributeValueDQ (t : tag) (n v : string)
| AttributeValueSQ (t : tag) (n v : string)
| AttributeValueUnquoted (t : tag) (n v : string)
| AfterAttributeValueQuoted (t : tag)
| SelfClosingStartTag (t : tag)
| BogusComment.

Definition is_space (c : ascii) : bool :=
  let n := nat_of_ascii c in
  Nat.eqb n 9 || Nat.eqb n 10 || Nat.eqb n 12 || Nat.eqb n 13 || Nat.eqb n 32.

Definition is_upper (c : ascii) : bool :=
  let n := nat_of_ascii c in Nat.leb 65 n && Nat.leb n 90.

Definition is_alpha (c : ascii) : bool :=
  let n := nat_of_ascii c in
  (Nat.leb 65 n && Nat.leb n 90) || (Nat.leb 97 n && Nat.leb n 122).

Definition lower (c : ascii) : ascii :=
  if is_upper c then ascii_of_nat (nat_of_ascii c + 32) else c.

Definition snoc (s : string) (c : ascii) : string := s ++ String c "".

Fixpoint has_attr (n : string) (l : list (string * string)) : bool :=
  match l with
  | [] => false
  | (m, _) :: l' => String.eqb m n || has_attr n l'
  end.

(** The attribute [n="v"] is complete; a second attribute of the same
    name is dropped. *)
Definition add_attr (t : tag) (n v : string) : tag :=
  if has_attr n (attrs t) then t
  else mkTag (closing t) (name t) (attrs t ++ [(n, v)])%list.

(** The tag is complete: a start tag is an element. *)
Definition emit (t : tag) : tstate * list tag :=
  (Data, if closing t then [] else [t]).

Definition data_state (c : ascii) : tstate * list tag :=
  if Ascii.eqb c "<" then (TagOpen, []) else (Data, []).

Definition before_attribute_name (t : tag) (c : ascii) : tstate * list tag :=
  if is_space c then (BeforeAttributeName t, [])
  else if Ascii.eqb c "/" then (SelfClosingStartTag t, [])
  else if Ascii.eqb c ">" then emit t
  else (AttributeName t (String (lower c) ""), []).

Definition step (q : tstate) (c : ascii) : tstate * list tag :=
  match q with
  | Data => data_state c
  | TagOpen =>
      if Ascii.eqb c "!" then (BogusComment, [])
      else if Ascii.eqb c "/" then (EndTagOpen, [])
      else if is_alpha c then (TagName (mkTag false (String (lower c) "") []), [])
      else if Ascii.eqb c "?" then (BogusComment, [])
      else data_state c
  | EndTagOpen =>
      if is_alpha c then (TagName (mkTag true (String (lower c) "") []), [])
      else if Ascii.eqb c ">" then (Data, [])
      else (BogusComment, [])
  | TagName t =>
      if is_space c then (BeforeAttributeName t, [])
      else if Ascii.eqb c "/" then (SelfClosingStartTag t, [])
      else if Ascii.eqb c ">" then emit t
      else (TagName (mkTag (closing t) (snoc (name t) (lower c)) (attrs t)), [])
  | BeforeAttributeName t => before_attribute_name t c
  | AttributeName t n =>
      if is_space c then (AfterAttributeName t n, [])
      else if Ascii.eqb c "/" then (SelfClosingStartTag (add_attr t n ""), [])
      else if Ascii.eqb c ">" then emit (add_attr t n "")
      else if Ascii.eqb c "=" then (BeforeAttributeValue t n, [])
      else (AttributeName t (snoc n (lower c)), [])
  | AfterAttributeName t n =>
      if is_space c then (AfterAttributeName t n, [])
      else if Ascii.eqb c "/" then (SelfClosingStartTag (add_attr t n ""), [])
      else if Ascii.eqb c "=" then (BeforeAttributeValue t n, [])
      else if Ascii.eqb c ">" then emit (add_attr t n "")
      else (AttributeName (add_attr t n "") (String (lower c) ""), [])
  | BeforeAttributeValue t n =>
      if is_space c then (BeforeAttributeValue t n, [])
      else if Ascii.eqb c Str.dq then (AttributeValueDQ t n "", [])
      else if Ascii.eqb c "'" then (AttributeValueSQ t n "", [])
      else if Ascii.eqb c ">" then emit (add_attr t n "")
      else (AttributeValueUnquoted t n (String c ""), [])
  | AttributeValueDQ t n v =>
      if Ascii.eqb c Str.dq then (AfterAttributeValueQuoted (add_attr t n v), [])
      else (AttributeValueDQ t n (snoc v c), [])
  | AttributeValueSQ t n v =>
      if Ascii.eqb c "'" then (AfterAttributeValueQuoted (add_attr t n v), [])
      else (AttributeValueSQ t n (snoc v c), [])
  | AttributeValueUnquoted t n v =>
      if is_space c then (BeforeAttributeName (add_attr t n v), [])
      else if Ascii.eqb c ">" then emit (add_attr t n v)
      else (AttributeValueUnquoted t n (snoc v c), [])
  | AfterAttributeValueQuoted t => before_attribute_name t c
  | SelfClosingStartTag t => before_attribute_name t c
  | BogusComment =>
      if Ascii.eqb c ">" then (Data, []) else (BogusComment, [])
  end.

(** Run the tokenizer over [s] from state [q]: the state reached and the
    start tags completed on the way, in document order. *)
Fixpoint scan (q : tstate) (s : string) : tstate * list tag :=
  match s with
  | EmptyString => (q, [])
  | String c r =>
      let (q1, o1) := step q c in
      let (q2, o2) := scan q1 r in
      (q2, o1 ++ o2)%list
  end.

(** The elements that the markup [s] creates, in document order.  A tag
    left open at the end of the markup creates nothing. *)
Definition elements (s : string) : list tag := snd (scan Data s).

Definition is_tag (n : string) (t : tag) : bool := String.eqb (name t) n.

(** The elements of [s] whose tag is [n]. *)
Definition elements_by_tag (n : string) (s : string) : list tag :=
  filter (is_tag n) (elements s).

Fixpoint attr (n : string) (l : list (string * string)) : option string :=
  match l with
  | [] => None
  | (m, v) :: l' => if String.eqb m n then Some v else attr n l'
  end.

(** The [src] attribute of an element, as its text stands in the markup
    (a browser decodes the character references of that text). *)
Definition src (t : tag) : option string := attr "src" (attrs t).

End HTML.

(* ===================================================================== *)
(** ** [addRice] *)
(* ===================================================================== *)

(** The three markup templates of the media, lines 9, 12 to 16 and 19. *)
Definition video_markup (mediaUrl : string) : string :=
  Str.q "<video class='rice-video' controls><source src='" ++ mediaUrl
  ++ Str.q "' type='video/mp4'>Your browser does not support the video tag.</video>".

Definition gallery_open : string := Str.q "<div class='gallery'>".
Definition gallery_close : string := "</div>".

Definition gallery_image (url : string) : string :=
  Str.q "<img src='" ++ url ++ Str.q "' alt='Screenshot' class='rice-image'>".

Definition single_image (mediaUrl : string) : string :=
  Str.q "<img src='" ++ mediaUrl ++ Str.q "' alt='Desktop Screenshot' class='rice-image'>".

(** [mediaUrl.forEach(url => { mediaHTML += ... })]: the images are added in
    array order; converting an item to a string can throw.  The array is
    dense, so [forEach] visits every index. *)
Fixpoint gallery_forEach (urls : list value) (mediaHTML : string) : completion string :=
  match urls with
  | [] => Normal mediaHTML
  | url :: rest =>
      cbind (ToString url) (fun u =>
      gallery_forEach rest (mediaHTML ++ gallery_image u))
  end.

(** Lines 7 to 20: the value of [mediaHTML]. *)
Definition media_markup (mediaUrl mediaType : value) : completion string :=
  if strict_eq_string mediaType "video" then
    cbind (ToString mediaUrl) (fun u => Normal (video_markup u))
  else
    match mediaUrl with
    | Array urls =>
        cbind (gallery_forEach urls gallery_open) (fun g =>
        Normal (g ++ gallery_close))
    | _ =>
        cbind (ToString mediaUrl) (fun u => Normal (single_image u))
    end.

(** Lines 22 to 35: the template literal assigned to [riceCard.innerHTML],
    with its line breaks and indentation. *)
Definition card_markup (username title mediaHTML redditUrl upvotes comments : string) : string :=
  Str.nl ++
  Str.q "        <div class='rice-header'>" ++ Str.nl ++
  Str.q "            <div class='username'>u/" ++ username ++ "</div>" ++ Str.nl ++
  Str.q "            <div class='rice-title'>" ++ title ++ "</div>" ++ Str.nl ++
  "        </div>" ++ Str.nl ++
  Str.q "        <div class='media-container'>" ++ Str.nl ++
  "            " ++ mediaHTML ++ Str.nl ++
  "        </div>" ++ Str.nl ++
  Str.q "        <a href='" ++ redditUrl ++ Str.q "' class='post-link' target='_blank'>View on Reddit →</a>" ++ Str.nl ++
  Str.q "        <div class='stats'>" ++ Str.nl ++
  "            <span>↑ " ++ upvotes ++ "</span>" ++ Str.nl ++
  "            <span>💬 " ++ comments ++ "</span>" ++ Str.nl ++
  "        </div>" ++ Str.nl ++
  "    ".

(** The card of an entry: the [div] of class [rice-card] whose markup is the
    template with the fields converted to strings, in the order in which the
    template literal evaluates them. *)
Definition rice_card (username title mediaUrl mediaType redditUrl upvotes comments : value)
  : completion element :=
  cbind (media_markup mediaUrl mediaType) (fun mediaHTML =>
  cbind (ToString username) (fun u =>
  cbind (ToString title) (fun t =>
  cbind (ToString redditUrl) (fun r =>
  cbind (ToString upvotes) (fun up =>
  cbind (ToString comments) (fun cm =>
  Normal (mkElement "div" "rice-card" (card_markup u t mediaHTML r up cm)))))))).

Definition addRice (username title mediaUrl mediaType redditUrl upvotes comments : value)
  : M unit :=
  riceCard <- eval (rice_card username title mediaUrl mediaType redditUrl upvotes comments) ;;
  appendChild riceCard.

(* ===================================================================== *)
(** ** Promises *)
(* ===================================================================== *)

(** A settled promise. *)
Inductive settled (A : Type) : Type :=
| Fulfilled (a : A)
| Rejected (reason : js_error).
Arguments Fulfilled {A} a.
Arguments Rejected {A} reason.

(** Run a handler; a throw becomes a rejection. *)
Definition run_handler {A} (h : M A) : M (settled A) :=
  fun s =>
    match h s with
    | (Normal a, s') => (Normal (Fulfilled a), s')
    | (Throw e, s') => (Normal (Rejected e), s')
    end.

(** [p.then(onFulfilled)], once [p] has settled. *)
Definition promise_then {A B} (p : settled A) (onFulfilled : A -> M B) : M (settled B) :=
  match p with
  | Fulfilled a => run_handler (onFulfilled a)
  | Rejected e => ret (Rejected e)
  end.

(** [p.catch(onRejected)]. *)
Definition promise_catch {A} (p : settled A) (onRejected : js_error -> M A) : M (settled A) :=
  match p with
  | Fulfilled a => ret (Fulfilled a)
  | Rejected e => run_handler (onRejected e)
  end.

(** [p.finally(onFinally)]: the handler runs in both cases and the
    settlement of [p] passes through, unless the handler throws. *)
Definition promise_finally {A} (p : settled A) (onFinally : M unit) : M (settled A) :=
  r <- run_handler onFinally ;;
  match r with
  | Fulfilled _ => ret p
  | Rejected e => ret (Rejected e)
  end.

(** A promise that a timer will settle: the delay of the timer, and the
    settlement as a function of the number that [Math.random()] returns
    when the timer fires. *)
Record timer_promise (A : Type) : Type := mkTimerPromise {
  delay : Z;
  settle : Q -> settled A
}.
Arguments mkTimerPromise {A} delay settle.
Arguments delay {A} t.
Arguments settle {A} t r.

(* ===================================================================== *)
(** ** [createGitHubIssue] *)
(* ===================================================================== *)

(** The literal [0.1]: the double nearest to one tenth,
    3602879701896397 / 2^55. *)
Definition literal_0_1 : Q := 3602879701896397 # 36028797018963968.

(** [a > b] on numbers. *)
Definition Qgtb (a b : Q) : bool := negb (Qle_bool a b).

(** Lines 99 to 106, the callback of the timer: [random] is the value of
    [Math.random()]. *)
Definition timer_callback (random : Q) : settled unit :=
  if Qgtb random literal_0_1 then Fulfilled tt
  else Rejected (Error_ "Network error").

(** Lines 77 to 108.  The executor of the promise runs at once and starts
    the timer; [redditUrl] is not used. *)
Definition createGitHubIssue (redditUrl : string) : M (timer_promise unit) :=
  log (SetTimeout 1000) ;;
  ret (mkTimerPromise 1000 timer_callback).

(* ===================================================================== *)
(** ** [submitRice] *)
(* ===================================================================== *)

(** The three handlers of lines 63 to 73. *)
Definition on_fulfilled : M unit :=
  alert "Rice submitted successfully! It will be reviewed and added if approved." ;;
  set_value "".

Definition on_rejected (error : js_error) : M unit :=
  alert ("Error submitting rice: " ++ err_message error).

Definition on_finally : M unit :=
  set_disabled false ;;
  set_textContent "Submit Rice".

(** The chain [.then(...).catch(...).finally(...)] on a promise that has
    settled as [outcome]; the result is the settlement of the last promise
    of the chain. *)
Definition reactions (outcome : settled unit) : M (settled unit) :=
  p1 <- promise_then outcome (fun _ => on_fulfilled) ;;
  p2 <- promise_catch p1 on_rejected ;;
  promise_finally p2 on_finally.

(** What a call leaves behind for the event loop: after [after]
    milliseconds, [run random] runs on the page as it is then. *)
Record task : Type := mkTask {
  after : Z;
  run : Q -> M (settled unit)
}.

(** Lines 41 to 74.  The result is the task left pending, [None] when the
    call ends at one of the two [return]s of the validation. *)
Definition submitRice : M (option task) :=
  text <- get_value ;;
  let url := Str.trim text in
  if Str.is_empty url then
    alert "Please enter a Reddit URL" ;;
    ret None
  else if negb (Str.includes url "reddit.com/r/unixporn") then
    alert "Please enter a valid r/unixporn post URL" ;;
    ret None
  else
    set_disabled true ;;
    set_textContent "Submitting..." ;;
    log (Call_createGitHubIssue url) ;;
    p <- createGitHubIssue url ;;
    ret (Some (mkTask (delay p) (fun random => reactions (settle p random)))).

(* ===================================================================== *)
(** ** The [keypress] listener and a sequence of calls of [addRice] *)
(* ===================================================================== *)

(** Lines 111 to 115, the listener that the script attaches to the input:
    [key] is [e.key], and the result is the task that the call leaves
    pending, if any. *)
Definition keypress_listener (key : string) : M (option task) :=
  if String.eqb key "Enter" then submitRice else ret None.

(** The seven arguments of one call of [addRice]. *)
Record entry : Type := mkEntry {
  entry_username : value;
  entry_title : value;
  entry_mediaUrl : value;
  entry_mediaType : value;
  entry_redditUrl : value;
  entry_upvotes : value;
  entry_comments : value
}.

Definition addRice_entry (e : entry) : M unit :=
  addRice (entry_username e) (entry_title e) (entry_mediaUrl e) (entry_mediaType e)
          (entry_redditUrl e) (entry_upvotes e) (entry_comments e).

(** The calls [addRice(...); addRice(...); ...] written one after the
    other: a throw ends the sequence. *)
Fixpoint addRice_each (es : list entry) : M unit :=
  match es with
  | [] => ret tt
  | e :: rest => addRice_entry e ;; addRice_each rest
  end.

(* ===================================================================== *)
(** ** Vocabulary of the statements *)
(* ===================================================================== *)

(** The two guards of lines 47 and 52, on the value of the input. *)
Definition passes_validation (input : string) : bool :=
  negb (Str.is_empty (Str.trim input))
  && Str.includes (Str.trim input) "reddit.com/r/unixporn".

(** The arguments of the calls of [createGitHubIssue] in a trace, in order. *)
Fixpoint calls (tr : list event) : list string :=
  match tr with
  | [] => []
  | Call_createGitHubIssue url :: tr' => url :: calls tr'
  | _ :: tr' => calls tr'
  end.

(** A page with the example URL of the specification typed in. *)
Definition example_state : state :=
  mkState (mkPage [] "  https://reddit.com/r/unixporn/comments/abc123 " false "Submit Rice") [].

Definition success_text : string :=
  "Rice submitted successfully! It will be reviewed and added if approved.".

(** The page while a request is in flight. *)
Definition submitting (p : page) : page :=
  mkPage (riceGrid p) (urlInput_value p) true "Submitting...".

(** The page once the button is released. *)
Definition released (p : page) (text : string) : page :=
  mkPage (riceGrid p) text false "Submit Rice".

(** The media references of an entry that is not a video: the items of a
    sequence, or the single reference. *)
Definition media_refs (mediaUrl : value) : list value :=
  match mediaUrl with
  | Array items => items
  | _ => [mediaUrl]
  end.

(** [v] converts to a string in which [c] does not occur. *)
Definition converts_without (c : ascii) (v : value) : bool :=
  match ToString v with
  | Normal s => negb (Str.mem c s)
  | Throw _ => false
  end.

(** Safe as element content: the text holds no [<], which would open a
    tag. *)
Definition plain_text (v : value) : bool := converts_without "<" v.

(** Safe as a double-quoted attribute value: the text holds no double
    quote, which would end the value. *)
Definition plain_attr (v : value) : bool := converts_without Str.dq v.

(** Values that string conversion accepts: anything but a symbol or an
    object whose conversion throws, at any depth of an array. *)
Fixpoint convertible (v : value) : bool :=
  match v with
  | Symbol _ => false
  | Object None => false
  | Array items => forallb convertible items
  | _ => true
  end.

(** The elements that the fixed parts of the card template create, before
    and after the media. *)
Definition el (n : string) (a : list (string * string)) : HTML.tag :=
  HTML.mkTag false n a.

Definition header_elements : list HTML.tag :=
  [ el "div" [("class", "rice-header")];
    el "div" [("class", "username")];
    el "div" [("class", "rice-title")];
    el "div" [("class", "media-container")] ].

Definition footer_elements (redditUrl : string) : list HTML.tag :=
  [ el "a" [("href", redditUrl); ("class", "post-link"); ("target", "_blank")];
    el "div" [("class", "stats")];
    el "span" [];
    el "span" [] ].

Definition video_elements (mediaUrl : string) : list HTML.tag :=
  [ el "video" [("class", "rice-video"); ("controls", "")];
    el "source" [("src", mediaUrl); ("type", "video/mp4")] ].

Definition gallery_element : HTML.tag := el "div" [("class", "gallery")].

Definition image_element (alt url : string) : HTML.tag :=
  el "img" [("src", url); ("alt", alt); ("class", "rice-image")].

(** The markup of the images of a gallery, in order. *)
Fixpoint gallery_images (urls : list string) : string :=
  match urls with
  | [] => ""
  | u :: rest => gallery_image u ++ gallery_images rest
  end.

(** [strs] are the texts of [vs], item by item. *)
Definition texts_of (vs : list value) (strs : list string) : Prop :=
  Forall2 (fun v s => ToString v = Normal s) vs strs.

(** The state after [grid.appendChild(card)]. *)
Definition with_card (s : state) (card : element) : state :=
  mkState
    (mkPage (riceGrid (dom s) ++ [card])%list (urlInput_value (dom s))
            (submitBtn_disabled (dom s)) (submitBtn_textContent (dom s)))
    (trace s ++ [AppendChild card])%list.

(** A page with an empty grid, and the source link used in the examples. *)
Definition blank_page : state :=
  mkState (mkPage [] "" false "Submit Rice") [].

Definition example_link : value :=
  String_ "https://reddit.com/r/unixporn/comments/abc123".

(** The card of an entry, or the error of its conversion. *)
Definition entry_card (e : entry) : completion element :=
  rice_card (entry_username e) (entry_title e) (entry_mediaUrl e) (entry_mediaType e)
            (entry_redditUrl e) (entry_upvotes e) (entry_comments e).

(** The cards of the entries that precede the first entry whose conversion
    throws, and the error of that entry. *)
Fixpoint cards_before_throw (es : list entry) : list element :=
  match es with
  | [] => []
  | e :: rest =>
      match entry_card e with
      | Normal card => card :: cards_before_throw rest
      | Throw _ => []
      end
  end.

Fixpoint first_throw (es : list entry) : option js_error :=
  match es with
  | [] => None
  | e :: rest =>
      match entry_card e with
      | Normal _ => first_throw rest
      | Throw err => Some err
      end
  end.

(** A string made of white space only: a sequence of the code points that
    [trim] removes. *)
Inductive blank : string -> Prop :=
| blank_empty : blank ""
| blank_more (w s : string) : In w Str.white_space -> blank s -> blank (w ++ s).

(** The page after a whole submission: the button released, the input
    cleared when the promise was fulfilled and kept when it was rejected. *)
Definition after_submission (p : page) (outcome : settled unit) : page :=
  released p (match outcome with
              | Fulfilled _ => ""
              | Rejected _ => urlInput_value p
              end).

(** The alert of a settlement. *)
Definition settlement_alert (outcome : settled unit) : list event :=
  match outcome with
  | Fulfilled _ => [Alert success_text; SetValue ""]
  | Rejected e => [Alert ("Error submitting rice: " ++ err_message e)]
  end.

(** [s] starts, or ends, with one of the code points that [trim] removes. *)
Definition starts_with_white_space (s : string) : bool :=
  match Str.strip_one Str.white_space s with Some _ => true | None => false end.

Definition ends_with_white_space (s : string) : bool :=
  match Str.strip_one (List.map Str.rev Str.white_space) (Str.rev s) with
  | Some _ => true
  | None => false
  end.

(** The values that [addRice] converts into [src] attributes: the media
    argument itself for a video, its references otherwise. *)
Definition media_sources (mediaUrl mediaType : value) : list value :=
  if strict_eq_string mediaType "video" then [mediaUrl] else media_refs mediaUrl.

(** The elements of the media of a card, given the texts of its sources:
    a [video] with its [source]; or the gallery [div] and its images; or
    the single image. *)
Definition media_elements (mediaUrl mediaType : value) (urls : list string)
  : list HTML.tag :=
  if strict_eq_string mediaType "video" then flat_map video_elements urls
  else if Array_isArray mediaUrl
       then gallery_element :: List.map (image_element "Screenshot") urls
       else List.map (image_element "Desktop Screenshot") urls.

(** A text that a browser takes over unchanged as a double-quoted
    attribute value: it holds no double quote, which would end the value,
    no [&], which would start a character reference, and neither U+0000
    nor a carriage return, which the parser replaces. *)
Definition attr_exact_text (s : string) : bool :=
  negb (Str.mem Str.dq s) && negb (Str.mem "&" s)
  && negb (Str.mem (ascii_of_nat 0) s) && negb (Str.mem (ascii_of_nat 13) s).

(** [v] converts to such a text. *)
Definition exact_attr (v : value) : bool :=
  match ToString v with
  | Normal s => attr_exact_text s
  | Throw _ => false
  end.

(* ===================================================================== *)
(** * Properties *)
(* ===================================================================== *)

(** ** Sanity checks of the string operations *)

Example trim_spaces : Str.trim "  a b  " = "a b".
Proof. reflexivity. Qed.

Example trim_unicode :
  Str.trim (Str.bytes [32; 194; 160; 9; 120; 10; 239; 187; 191]) = "x".
Proof. reflexivity. Qed.

Example trim_blank : Str.trim "   " = "".
Proof. reflexivity. Qed.

Example ToString_nested_array :
  ToString (Array [Number 1; Null; Array [String_ "a"; Number (-5)]; Undefined; Boolean true])
  = Normal "1,,a,-5,,true".
Proof. reflexivity. Qed.

(** ** [trim] removes all the white space at both ends

    The loop of [Str.strip] is bounded by the length of the string, which
    is enough: where it stops, no white space is left to remove. *)

Section Trim.

Import Str.

Lemma drop_prefix_length (p s r : string) :
  drop_prefix p s = Some r ->
  String.length s = String.length p + String.length r.
Proof.
  revert s. induction p as [|a p IH]; intros s H.
  - injection H as ->. reflexivity.
  - destruct s as [|b s]; [discriminate H|]. cbn in H.
    destruct (Ascii.eqb a b); [|discriminate H].
    cbn. rewrite (IH s H). reflexivity.
Qed.

Lemma strip_one_shorter (ws : list string) (s r : string) :
  Forall (fun w => w <> "") ws ->
  strip_one ws s = Some r ->
  String.length r < String.length s.
Proof.
  induction 1 as [|w ws Hw _ IH]; intros H; [discriminate H|].
  cbn in H. destruct (drop_prefix w s) as [r'|] eqn:E.
  - injection H as ->. rewrite (drop_prefix_length _ _ _ E).
    destruct w as [|a w]; [contradiction Hw; reflexivity|]. cbn. lia.
  - apply IH. exact H.
Qed.

Lemma strip_one_empty (ws : list string) :
  Forall (fun w => w <> "") ws -> strip_one ws "" = None.
Proof.
  induction 1 as [|w ws Hw _ IH]; [reflexivity|].
  destruct w as [|a w]; [contradiction Hw; reflexivity|]. exact IH.
Qed.

Lemma strip_exhausts (ws : list string) (fuel : nat) (s : string) :
  Forall (fun w => w <> "") ws ->
  String.length s <= fuel ->
  strip_one ws (strip ws fuel s) = None.
Proof.
  intros Hws. revert s. induction fuel as [|fuel IH]; intros s Hlen.
  - destruct s; [|cbn in Hlen; lia]. apply strip_one_empty. exact Hws.
  - cbn [strip]. destruct (strip_one ws s) as [r|] eqn:E; [|exact E].
    apply IH. pose proof (strip_one_shorter ws s r Hws E). lia.
Qed.

Lemma rev_append_length (s acc : string) :
  String.length (rev_append s acc) = String.length s + String.length acc.
Proof.
  revert acc. induction s as [|c s IH]; intros acc; [reflexivity|].
  cbn [rev_append]. rewrite IH. cbn. lia.
Qed.

Lemma rev_append_rev_append (s acc1 acc2 : string) :
  rev_append (rev_append s acc1) acc2 = rev_append acc1 (s ++ acc2).
Proof.
  revert acc1 acc2. induction s as [|c s IH]; intros acc1 acc2; [reflexivity|].
  cbn [rev_append]. rewrite IH. reflexivity.
Qed.

Lemma rev_involutive (s : string) : rev (rev s) = s.
Proof.
  unfold rev. rewrite rev_append_rev_append. cbn.
  induction s as [|c s IH]; [reflexivity|]. cbn. rewrite IH. reflexivity.
Qed.

Lemma white_space_nonempty : Forall (fun w => w <> "") white_space.
Proof. repeat constructor; discriminate. Qed.

Lemma white_space_rev_nonempty : Forall (fun w => w <> "") (List.map rev white_space).
Proof. repeat constructor; discriminate. Qed.

(** No white space is left at the start of [trimStart s]. *)
Lemma trimStart_exhausts (s : string) : strip_one white_space (trimStart s) = None.
Proof.
  apply strip_exhausts; [exact white_space_nonempty | apply Nat.le_refl].
Qed.

(** No white space is left at the end of [trimEnd s]. *)
Lemma trimEnd_exhausts (s : string) :
  strip_one (List.map rev white_space) (rev (trimEnd s)) = None.
Proof.
  unfold trimEnd. rewrite rev_involutive.
  apply strip_exhausts; [exact white_space_rev_nonempty|].
  unfold rev. rewrite rev_append_length. cbn. lia.
Qed.

End Trim.

(** ** The submission flow *)

Section Submission.

Lemma passes_validation_guards input :
  passes_validation input = true ->
  Str.is_empty (Str.trim input) = false
  /\ Str.includes (Str.trim input) "reddit.com/r/unixporn" = true.
Proof.
  unfold passes_validation. intros H.
  apply andb_true_iff in H. destruct H as [H1 H2].
  apply negb_true_iff in H1. split; assumption.
Qed.

Lemma submitRice_dispatch (s : state) :
  passes_validation (urlInput_value (dom s)) = true ->
  submitRice s =
  (Normal (Some (mkTask 1000 (fun random => reactions (timer_callback random)))),
   mkState (submitting (dom s))
     (trace s ++ [SetDisabled true; SetTextContent "Submitting...";
                  Call_createGitHubIssue (Str.trim (urlInput_value (dom s)));
                  SetTimeout 1000])%list).
Proof.
  intros H. destruct (passes_validation_guards _ H) as [He Hi].
  unfold submitRice, bind, get_value, read. cbn.
  rewrite He, Hi. cbn. unfold submitting.
  rewrite <- !app_assoc. reflexivity.
Qed.

Lemma submitRice_abort (s : state) :
  passes_validation (urlInput_value (dom s)) = false ->
  submitRice s =
  (Normal None,
   mkState (dom s)
     (trace s ++ [Alert (if Str.is_empty (Str.trim (urlInput_value (dom s)))
                         then "Please enter a Reddit URL"
                         else "Please enter a valid r/unixporn post URL")])%list).
Proof.
  unfold passes_validation. intros H.
  unfold submitRice, bind, get_value, read. cbn.
  destruct (Str.is_empty (Str.trim (urlInput_value (dom s)))); cbn in *.
  - reflexivity.
  - rewrite H. reflexivity.
Qed.

Lemma reactions_fulfilled (s : state) :
  reactions (Fulfilled tt) s =
  (Normal (Fulfilled tt),
   mkState (released (dom s) "")
     (trace s ++ [Alert success_text; SetValue "";
                  SetDisabled false; SetTextContent "Submit Rice"])%list).
Proof.
  unfold reactions, bind. cbn. unfold released.
  rewrite <- !app_assoc. reflexivity.
Qed.

Lemma reactions_rejected (e : js_error) (s : state) :
  reactions (Rejected e) s =
  (Normal (Fulfilled tt),
   mkState (released (dom s) (urlInput_value (dom s)))
     (trace s ++ [Alert ("Error submitting rice: " ++ err_message e);
                  SetDisabled false; SetTextContent "Submit Rice"])%list).
Proof.
  unfold reactions, bind. cbn. unfold released.
  rewrite <- !app_assoc. reflexivity.
Qed.

Lemma calls_app (a b : list event) : calls (a ++ b)%list = (calls a ++ calls b)%list.
Proof.
  induction a as [|e a IH]; [reflexivity|].
  destruct e; cbn; rewrite IH; reflexivity.
Qed.

Lemma timer_callback_resolves (random : Q) :
  (literal_0_1 < random)%Q -> timer_callback random = Fulfilled tt.
Proof.
  intros H. unfold timer_callback, Qgtb.
  destruct (Qle_bool random literal_0_1) eqn:E; [|reflexivity].
  apply Qle_bool_iff in E. exfalso. exact (Qlt_not_le _ _ H E).
Qed.

Lemma timer_callback_rejects (random : Q) :
  (random <= literal_0_1)%Q ->
  timer_callback random = Rejected (Error_ "Network error").
Proof.
  intros H. unfold timer_callback, Qgtb.
  apply Qle_bool_iff in H. rewrite H. reflexivity.
Qed.

Lemma startsWith_refl (s : string) : Str.drop_prefix s s = Some "".
Proof.
  induction s as [|c s IH]; [reflexivity|].
  cbn. rewrite Ascii.eqb_refl. exact IH.
Qed.

Lemma includes_suffix (a b : string) : Str.includes (a ++ b) b = true.
Proof.
  induction a as [|c a IH].
  - destruct b as [|c b]; [reflexivity|].
    cbn [append Str.includes]. unfold Str.startsWith.
    rewrite startsWith_refl. reflexivity.
  - cbn [append Str.includes]. rewrite IH. apply orb_true_r.
Qed.

End Submission.

(** ** Claims about [submitRice] *)

(** The three scenarios of the specification. *)
Example scenario_accepted :
  exists tk : task,
    submitRice example_state
    = (Normal (Some tk),
       mkState (mkPage [] "  https://reddit.com/r/unixporn/comments/abc123 "
                       true "Submitting...")
         [SetDisabled true; SetTextContent "Submitting...";
          Call_createGitHubIssue "https://reddit.com/r/unixporn/comments/abc123";
          SetTimeout 1000]).
Proof.
  exists (mkTask 1000 (fun random => reactions (timer_callback random))).
  reflexivity.
Qed.

Example scenario_blank :
  submitRice (mkState (mkPage [] "  " false "Submit Rice") [])
  = (Normal None,
     mkState (mkPage [] "  " false "Submit Rice") [Alert "Please enter a Reddit URL"]).
Proof. reflexivity. Qed.

Example scenario_other_site :
  submitRice (mkState (mkPage [] "https://example.com/post" false "Submit Rice") [])
  = (Normal None,
     mkState (mkPage [] "https://example.com/post" false "Submit Rice")
       [Alert "Please enter a valid r/unixporn post URL"]).
Proof. reflexivity. Qed.

(** C1: for every value of the input that passes validation, [submitRice]
    disables the button and sets its label to ["Submitting..."] before it
    calls [createGitHubIssue] (the two writes precede the call in the
    trace, and the page has the button disabled when the call returns); and
    whichever way the promise settles, on whatever page, the reactions end
    by enabling the button and setting its label to ["Submit Rice"]. *)
Theorem submitRice_button_held_then_released (s : state) :
  passes_validation (urlInput_value (dom s)) = true ->
  exists (tk : task) (s1 : state),
    submitRice s = (Normal (Some tk), s1)
    /\ trace s1 =
       (trace s ++ [SetDisabled true; SetTextContent "Submitting...";
                    Call_createGitHubIssue (Str.trim (urlInput_value (dom s)));
                    SetTimeout 1000])%list
    /\ submitBtn_disabled (dom s1) = true
    /\ submitBtn_textContent (dom s1) = "Submitting..."
    /\ (forall random, run tk random = reactions (timer_callback random))
    /\ forall (outcome : settled unit) (s' : state),
         exists (s2 : state) (before : list event),
           reactions outcome s' = (Normal (Fulfilled tt), s2)
           /\ trace s2 =
              (trace s' ++ before ++ [SetDisabled false; SetTextContent "Submit Rice"])%list
           /\ submitBtn_disabled (dom s2) = false
           /\ submitBtn_textContent (dom s2) = "Submit Rice".
Proof.
  intros H. eexists. eexists.
  split; [apply submitRice_dispatch; exact H|].
  cbn [trace dom submitting submitBtn_disabled submitBtn_textContent run].
  repeat split.
  intros [[]|e] s'.
  - rewrite reactions_fulfilled.
    exists (mkState (released (dom s') "")
              (trace s' ++ [Alert success_text; SetValue "";
                            SetDisabled false; SetTextContent "Submit Rice"])%list).
    exists [Alert success_text; SetValue ""]. repeat split.
  - rewrite reactions_rejected.
    eexists. exists [Alert ("Error submitting rice: " ++ err_message e)].
    repeat split.
Qed.

Lemma submitRice_button_held_then_released_witness :
  passes_validation (urlInput_value (dom example_state)) = true
  /\ exists (tk : task) (s1 : state),
       submitRice example_state = (Normal (Some tk), s1)
       /\ submitBtn_disabled (dom s1) = true.
Proof.
  split; [reflexivity|].
  destruct (submitRice_button_held_then_released example_state eq_refl)
    as (tk & s1 & H1 & _ & H2 & _).
  exists tk, s1. split; assumption.
Defined.

(** C2: when the trimmed value of the input is empty or lacks
    ["reddit.com/r/unixporn"], [submitRice] shows one alert and returns:
    the page is unchanged (the button is neither disabled nor relabelled),
    nothing is left pending and [createGitHubIssue] is not called. *)
Theorem submitRice_rejects_invalid_input (s : state) :
  Str.is_empty (Str.trim (urlInput_value (dom s))) = true
  \/ Str.includes (Str.trim (urlInput_value (dom s))) "reddit.com/r/unixporn" = false ->
  exists (s1 : state) (msg : string),
    submitRice s = (Normal None, s1)
    /\ dom s1 = dom s
    /\ trace s1 = (trace s ++ [Alert msg])%list
    /\ calls (trace s1) = calls (trace s)
    /\ (msg = "Please enter a Reddit URL"
        \/ msg = "Please enter a valid r/unixporn post URL").
Proof.
  intros H.
  assert (Hv : passes_validation (urlInput_value (dom s)) = false).
  { unfold passes_validation. destruct H as [H|H]; rewrite H;
      [reflexivity | apply andb_false_r]. }
  rewrite (submitRice_abort s Hv).
  eexists. eexists. split; [reflexivity|]. cbn [dom trace].
  repeat split.
  - rewrite calls_app. cbn. apply app_nil_r.
  - destruct (Str.is_empty _); [left | right]; reflexivity.
Qed.

Lemma submitRice_rejects_invalid_input_witness :
  exists (s1 : state) (msg : string),
    submitRice (mkState (mkPage [] "https://example.com/post" false "Submit Rice") [])
    = (Normal None, s1)
    /\ submitBtn_disabled (dom s1) = false.
Proof.
  destruct (submitRice_rejects_invalid_input
              (mkState (mkPage [] "https://example.com/post" false "Submit Rice") [])
              (or_intror eq_refl))
    as (s1 & msg & H1 & H2 & _).
  exists s1, msg. split; [exact H1|]. rewrite H2. reflexivity.
Defined.

(** C3: for every value of the input that passes validation, [submitRice]
    calls [createGitHubIssue] once, with the trimmed value; and when the
    promise is fulfilled the reactions show the success alert, set the
    value of the input to the empty string, and make no further call. *)
Theorem submitRice_success (s : state) :
  passes_validation (urlInput_value (dom s)) = true ->
  exists (tk : task) (s1 : state),
    submitRice s = (Normal (Some tk), s1)
    /\ calls (trace s1) = (calls (trace s) ++ [Str.trim (urlInput_value (dom s))])%list
    /\ forall (random : Q) (s' : state),
         (literal_0_1 < random)%Q ->
         exists s2 : state,
           run tk random s' = (Normal (Fulfilled tt), s2)
           /\ run tk random s' = reactions (Fulfilled tt) s'
           /\ trace s2 =
              (trace s' ++ [Alert success_text; SetValue "";
                            SetDisabled false; SetTextContent "Submit Rice"])%list
           /\ urlInput_value (dom s2) = ""
           /\ calls (trace s2) = calls (trace s').
Proof.
  intros H. eexists. eexists.
  split; [apply submitRice_dispatch; exact H|].
  cbn [trace dom run]. split.
  - rewrite calls_app. reflexivity.
  - intros random s' Hr. rewrite (timer_callback_resolves random Hr).
    rewrite reactions_fulfilled. eexists. split; [reflexivity|].
    cbn [trace dom released urlInput_value]. repeat split.
    rewrite calls_app. cbn. apply app_nil_r.
Qed.

Lemma submitRice_success_witness :
  passes_validation (urlInput_value (dom example_state)) = true
  /\ exists (tk : task) (s1 s2 : state),
       submitRice example_state = (Normal (Some tk), s1)
       /\ calls (trace s1) = ["https://reddit.com/r/unixporn/comments/abc123"]
       /\ run tk (1 # 2)%Q s1 = (Normal (Fulfilled tt), s2)
       /\ urlInput_value (dom s2) = "".
Proof.
  split; [reflexivity|].
  destruct (submitRice_success example_state eq_refl) as (tk & s1 & H1 & H2 & H3).
  destruct (H3 (1 # 2)%Q s1 eq_refl) as (s2 & R1 & _ & _ & R2 & _).
  exists tk, s1, s2. repeat split; assumption.
Defined.

(** C4: for every value of the input that passes validation, when the
    promise of [createGitHubIssue] is rejected with an error, the reactions
    show one alert whose text is ["Error submitting rice: "] followed by the
    message of the error, and call [createGitHubIssue] no more; the error
    of the placeholder is [Error("Network error")]. *)
Theorem submitRice_failure (s : state) (e : js_error) :
  passes_validation (urlInput_value (dom s)) = true ->
  exists (tk : task) (s1 : state),
    submitRice s = (Normal (Some tk), s1)
    /\ (forall (random : Q) (s' : state),
          (random <= literal_0_1)%Q ->
          run tk random s' = reactions (Rejected (Error_ "Network error")) s')
    /\ forall s' : state,
         exists (s2 : state) (text : string),
           reactions (Rejected e) s' = (Normal (Fulfilled tt), s2)
           /\ trace s2 =
              (trace s' ++ [Alert text; SetDisabled false; SetTextContent "Submit Rice"])%list
           /\ text = "Error submitting rice: " ++ err_message e
           /\ Str.includes text (err_message e) = true
           /\ calls (trace s2) = calls (trace s').
Proof.
  intros H. eexists. eexists.
  split; [apply submitRice_dispatch; exact H|].
  cbn [run]. split.
  - intros random s' Hr. rewrite (timer_callback_rejects random Hr). reflexivity.
  - intros s'. rewrite reactions_rejected. eexists. eexists.
    split; [reflexivity|]. cbn [trace]. repeat split.
    + apply includes_suffix.
    + rewrite calls_app. cbn. apply app_nil_r.
Qed.

Lemma submitRice_failure_witness :
  passes_validation (urlInput_value (dom example_state)) = true
  /\ exists (tk : task) (s1 s2 : state),
       submitRice example_state = (Normal (Some tk), s1)
       /\ run tk 0%Q s1 = (Normal (Fulfilled tt), s2)
       /\ trace s2 =
          (trace s1 ++ [Alert "Error submitting rice: Network error";
                        SetDisabled false; SetTextContent "Submit Rice"])%list.
Proof.
  split; [reflexivity|].
  destruct (submitRice_failure example_state (Error_ "Network error") eq_refl)
    as (tk & s1 & H1 & H2 & H3).
  destruct (H3 s1) as (s2 & text & R1 & R2 & R3 & _).
  exists tk, s1, s2. split; [exact H1|]. split.
  - rewrite (H2 0%Q s1); [exact R1|]. unfold Qle. cbn. lia.
  - rewrite R2, R3. reflexivity.
Defined.

(** C10: for every value of the input that passes validation, neither the
    dispatch nor the reactions to a rejection write the value of the input
    (the only write is in the handler of fulfilment); after a rejection the
    button is enabled again, and a second [submitRice] passes validation
    and calls [createGitHubIssue] with the same URL. *)
Theorem submitRice_failure_keeps_input (s : state) (e : js_error) :
  passes_validation (urlInput_value (dom s)) = true ->
  (forall s' : state,
     urlInput_value (dom (snd (reactions (Rejected e) s'))) = urlInput_value (dom s'))
  /\ exists (tk : task) (s1 s2 : state),
       submitRice s = (Normal (Some tk), s1)
       /\ reactions (Rejected e) s1 = (Normal (Fulfilled tt), s2)
       /\ urlInput_value (dom s2) = urlInput_value (dom s)
       /\ submitBtn_disabled (dom s2) = false
       /\ exists (tk' : task) (s3 : state),
            submitRice s2 = (Normal (Some tk'), s3)
            /\ calls (trace s3) =
               (calls (trace s) ++ [Str.trim (urlInput_value (dom s));
                                    Str.trim (urlInput_value (dom s))])%list.
Proof.
  intros H. split.
  - intros s'. rewrite reactions_rejected. reflexivity.
  - eexists. eexists. eexists.
    split; [apply submitRice_dispatch; exact H|].
    split; [apply reactions_rejected|].
    cbn [dom trace released submitting urlInput_value submitBtn_disabled].
    split; [reflexivity|]. split; [reflexivity|].
    eexists. eexists. split.
    + apply submitRice_dispatch. exact H.
    + cbn [dom trace released urlInput_value].
      rewrite !calls_app. cbn. rewrite !app_nil_r. rewrite <- app_assoc. reflexivity.
Qed.

Lemma submitRice_failure_keeps_input_witness :
  passes_validation (urlInput_value (dom example_state)) = true
  /\ forall s' : state,
       urlInput_value (dom (snd (reactions (Rejected (Error_ "Network error")) s')))
       = urlInput_value (dom s').
Proof.
  split; [reflexivity|].
  exact (proj1 (submitRice_failure_keeps_input example_state
                  (Error_ "Network error") eq_refl)).
Defined.

(** ** Claims about [createGitHubIssue] *)

(** C9: for every URL, [createGitHubIssue] starts a timer of 1000 ms and
    returns a promise whose settlement depends on the number drawn by
    [Math.random()] alone: it is fulfilled (with no payload) exactly when
    the number is greater than the literal [0.1], and rejected with an
    error of message ["Network error"] otherwise; the URL plays no part.
    Of the interval from 0 to 1 the fulfilling part has length
    [1 - literal_0_1], which is [0.9] less the rounding of the literal. *)
Theorem createGitHubIssue_settlement (redditUrl : string) (s : state) :
  exists p : timer_promise unit,
    createGitHubIssue redditUrl s
    = (Normal p, mkState (dom s) (trace s ++ [SetTimeout 1000])%list)
    /\ delay p = 1000%Z
    /\ (forall random : Q,
          (settle p random = Fulfilled tt <-> (literal_0_1 < random)%Q)
          /\ (settle p random = Rejected (Error_ "Network error")
              <-> (random <= literal_0_1)%Q))
    /\ (forall otherUrl : string,
          createGitHubIssue otherUrl = createGitHubIssue redditUrl)
    /\ (1 - literal_0_1 == (9 # 10) - (1 # 180143985094819840))%Q.
Proof.
  exists (mkTimerPromise 1000 timer_callback).
  split; [reflexivity|]. split; [reflexivity|].
  split; [|split; [reflexivity | reflexivity]].
  intros random. cbn [settle]. split; split; intros H.
  - destruct (Qlt_le_dec literal_0_1 random) as [Hlt|Hle]; [exact Hlt|].
    rewrite (timer_callback_rejects random Hle) in H. discriminate H.
  - apply timer_callback_resolves. exact H.
  - destruct (Qlt_le_dec literal_0_1 random) as [Hlt|Hle]; [|exact Hle].
    rewrite (timer_callback_resolves random Hlt) in H. discriminate H.
  - apply timer_callback_rejects. exact H.
Qed.

(** ** The markup of a card and its elements *)

Section Markup.

Import HTML.

Lemma append_assoc (a b c : string) : (a ++ b) ++ c = a ++ (b ++ c).
Proof.
  induction a as [|x a IH]; [reflexivity|].
  cbn. rewrite IH. reflexivity.
Qed.

Lemma append_nil_r (a : string) : a ++ "" = a.
Proof.
  induction a as [|x a IH]; [reflexivity|].
  cbn. rewrite IH. reflexivity.
Qed.

(** The tokenizer runs over a concatenation piece by piece. *)
Lemma scan_cat (q : tstate) (a b : string) q1 o1 q2 o2 o :
  scan q a = (q1, o1) ->
  scan q1 b = (q2, o2) ->
  o = (o1 ++ o2)%list ->
  scan q (a ++ b) = (q2, o).
Proof.
  revert q q1 o1 o. induction a as [|c a IH]; intros q q1 o1 o Ha Hb Ho.
  - cbn in Ha. injection Ha as <- <-. cbn. rewrite Hb, Ho. reflexivity.
  - cbn in Ha |- *. destruct (step q c) as [q' o'].
    destruct (scan q' a) as [q'' o''] eqn:E. injection Ha as <- <-.
    rewrite (IH q' q'' o'' (o'' ++ o2)%list E Hb eq_refl).
    rewrite Ho, app_assoc. reflexivity.
Qed.

(** Text without [<] creates no element. *)
Lemma scan_text (s : string) :
  Str.mem "<" s = false -> scan Data s = (Data, []).
Proof.
  induction s as [|c s IH]; intros H; [reflexivity|].
  cbn in H. apply orb_false_iff in H. destruct H as [Hc Hs].
  cbn. unfold data_state. rewrite Hc, (IH Hs). reflexivity.
Qed.

(** Inside a double-quoted attribute value, text without the double quote
    is taken into the value. *)
Lemma scan_quoted (t : tag) (n v s : string) :
  Str.mem Str.dq s = false ->
  scan (AttributeValueDQ t n v) s = (AttributeValueDQ t n (v ++ s), []).
Proof.
  revert v. induction s as [|c s IH]; intros v H.
  - cbn. rewrite append_nil_r. reflexivity.
  - cbn [Str.mem] in H. apply orb_false_iff in H. destruct H as [Hc Hs].
    cbn [scan step]. rewrite Hc, (IH _ Hs). unfold snoc.
    rewrite append_assoc. reflexivity.
Qed.

Ltac scan_piece :=
  first [ apply scan_text; assumption
        | apply scan_quoted; assumption
        | eassumption
        | vm_compute; reflexivity ].

Ltac scan_pieces :=
  lazymatch goal with
  | |- scan _ (_ ++ _) = _ =>
      eapply scan_cat; [ scan_piece | scan_pieces | cbn [app]; reflexivity ]
  | |- _ => scan_piece
  end.

Lemma scan_video (m : string) :
  Str.mem Str.dq m = false ->
  scan Data (video_markup m) = (Data, video_elements m).
Proof. intros Hm. unfold video_markup. scan_pieces. Qed.

Lemma scan_single_image (m : string) :
  Str.mem Str.dq m = false ->
  scan Data (single_image m) = (Data, [image_element "Desktop Screenshot" m]).
Proof. intros Hm. unfold single_image. scan_pieces. Qed.

Lemma scan_gallery_image (m : string) :
  Str.mem Str.dq m = false ->
  scan Data (gallery_image m) = (Data, [image_element "Screenshot" m]).
Proof. intros Hm. unfold gallery_image. scan_pieces. Qed.

(** The elements of a card: those of the header, those of the media, those
    of the footer, whenever the media markup leaves the tokenizer where it
    found it. *)
Lemma card_elements (u t m r up cm : string) (media : list tag) :
  Str.mem "<" u = false ->
  Str.mem "<" t = false ->
  scan Data m = (Data, media) ->
  Str.mem Str.dq r = false ->
  Str.mem "<" up = false ->
  Str.mem "<" cm = false ->
  elements (card_markup u t m r up cm)
  = (header_elements ++ media ++ footer_elements r)%list.
Proof.
  intros Hu Ht Hm Hr Hup Hcm.
  assert (H : scan Data (card_markup u t m r up cm)
              = (Data, (header_elements ++ media ++ footer_elements r)%list)).
  { unfold card_markup. scan_pieces. }
  unfold elements. rewrite H. reflexivity.
Qed.

Lemma scan_gallery_images (urls : list string) :
  Forall (fun u => Str.mem Str.dq u = false) urls ->
  scan Data (gallery_images urls) = (Data, List.map (image_element "Screenshot") urls).
Proof.
  induction 1 as [|u urls Hu _ IH]; [reflexivity|].
  cbn [gallery_images List.map].
  eapply scan_cat; [apply scan_gallery_image; exact Hu | exact IH | reflexivity].
Qed.

Lemma scan_gallery (urls : list string) :
  Forall (fun u => Str.mem Str.dq u = false) urls ->
  scan Data ((gallery_open ++ gallery_images urls) ++ gallery_close)
  = (Data, gallery_element :: List.map (image_element "Screenshot") urls).
Proof.
  intros H. rewrite append_assoc.
  eapply scan_cat; [vm_compute; reflexivity | | reflexivity].
  eapply scan_cat; [apply scan_gallery_images; exact H | vm_compute; reflexivity |].
  rewrite app_nil_r. reflexivity.
Qed.

Lemma gallery_forEach_texts (items : list value) (urls : list string) (acc : string) :
  texts_of items urls ->
  gallery_forEach items acc = Normal (acc ++ gallery_images urls).
Proof.
  intros H. revert acc. induction H as [|v u items urls Hv _ IH]; intros acc.
  - cbn. rewrite append_nil_r. reflexivity.
  - cbn [gallery_forEach gallery_images]. rewrite Hv. cbn [cbind].
    rewrite IH, append_assoc. reflexivity.
Qed.

Lemma converts_without_text (c : ascii) (v : value) :
  converts_without c v = true ->
  exists s, ToString v = Normal s /\ Str.mem c s = false.
Proof.
  unfold converts_without. destruct (ToString v) as [s|e]; [|discriminate].
  intros H. exists s. split; [reflexivity|]. apply negb_true_iff. exact H.
Qed.

Lemma plain_attr_texts (items : list value) :
  forallb plain_attr items = true ->
  exists urls, texts_of items urls
               /\ Forall (fun u => Str.mem Str.dq u = false) urls.
Proof.
  induction items as [|v items IH]; intros H.
  - exists []. split; constructor.
  - cbn in H. apply andb_true_iff in H. destruct H as [Hv Hr].
    destruct (converts_without_text _ _ Hv) as (u & Hu & Hq).
    destruct (IH Hr) as (urls & Ht & Hf).
    exists (u :: urls). split; constructor; assumption.
Qed.

End Markup.

(** ** [addRice]: running it *)

Section Rendering.

Variables username title mediaUrl mediaType redditUrl upvotes comments : value.

Lemma addRice_returns (card : element) (s : state) :
  rice_card username title mediaUrl mediaType redditUrl upvotes comments = Normal card ->
  addRice username title mediaUrl mediaType redditUrl upvotes comments s
  = (Normal tt, with_card s card).
Proof.
  intros H. unfold addRice, bind, eval. rewrite H. reflexivity.
Qed.

Lemma addRice_throws (e : js_error) (s : state) :
  rice_card username title mediaUrl mediaType redditUrl upvotes comments = Throw e ->
  addRice username title mediaUrl mediaType redditUrl upvotes comments s = (Throw e, s).
Proof.
  intros H. unfold addRice, bind, eval. rewrite H. reflexivity.
Qed.

Lemma rice_card_markup (m u t r up cm : string) :
  media_markup mediaUrl mediaType = Normal m ->
  ToString username = Normal u ->
  ToString title = Normal t ->
  ToString redditUrl = Normal r ->
  ToString upvotes = Normal up ->
  ToString comments = Normal cm ->
  rice_card username title mediaUrl mediaType redditUrl upvotes comments
  = Normal (mkElement "div" "rice-card" (card_markup u t m r up cm)).
Proof.
  intros Hm Hu Ht Hr Hup Hcm. unfold rice_card.
  rewrite Hm, Hu, Ht, Hr, Hup, Hcm. reflexivity.
Qed.

End Rendering.

Lemma media_markup_video (mediaUrl : value) (m : string) :
  ToString mediaUrl = Normal m ->
  media_markup mediaUrl (String_ "video") = Normal (video_markup m).
Proof.
  intros H. unfold media_markup. cbn [strict_eq_string].
  change (String.eqb "video" "video") with true. cbn iota.
  rewrite H. reflexivity.
Qed.




(** ** String conversion of convertible values *)

Lemma value_nested_ind (P : value -> Prop) :
  P Undefined -> P Null ->
  (forall b, P (Boolean b)) ->
  (forall n, P (Number n)) ->
  (forall s, P (String_ s)) ->
  (forall d, P (Symbol d)) ->
  (forall items, Forall P items -> P (Array items)) ->
  (forall c, P (Object c)) ->
  forall v, P v.
Proof.
  intros HU HN HB HNum HS HSym HArr HObj.
  fix IH 1. intros [ | | b | n | s | d | items | c].
  - exact HU.
  - exact HN.
  - apply HB.
  - apply HNum.
  - apply HS.
  - apply HSym.
  - apply HArr. induction items as [|x items IHitems].
    + constructor.
    + constructor; [apply IH | exact IHitems].
  - apply HObj.
Qed.

Lemma Array_join_returns (item_text : value -> completion string) (items : list value) :
  Forall (fun x => exists s, item_text x = Normal s) items ->
  exists s, Array_join item_text items = Normal s.
Proof.
  induction 1 as [|x items [sx Hx] _ [sr IH]]; [exists ""; reflexivity|].
  assert (Hitem : exists s,
            match x with
            | Undefined | Null => Normal ""
            | _ => item_text x
            end = Normal s).
  { destruct x; try (exists sx; exact Hx); exists ""; reflexivity. }
  destruct Hitem as [si Hi].
  cbn [Array_join]. fold (Array_join item_text items).
  rewrite Hi. destruct items as [|y items]; [exists si; reflexivity|].
  rewrite IH. cbn [cbind]. eexists. reflexivity.
Qed.

Lemma ToString_convertible (v : value) :
  convertible v = true -> exists s, ToString v = Normal s.
Proof.
  induction v as [ | | b | n | s | d | items IH | c] using value_nested_ind;
    intros H; try (eexists; reflexivity); try discriminate H.
  - cbn [ToString]. apply Array_join_returns.
    cbn [convertible] in H. rewrite forallb_forall in H.
    rewrite Forall_forall in IH |- *. intros x Hx.
    apply (IH x Hx). apply H. exact Hx.
  - destruct c as [s|]; [exists s; reflexivity | discriminate H].
Qed.

Lemma gallery_forEach_convertible (items : list value) (acc : string) :
  forallb convertible items = true ->
  exists m, gallery_forEach items acc = Normal m.
Proof.
  revert acc. induction items as [|x items IH]; intros acc H.
  - exists acc. reflexivity.
  - cbn in H. apply andb_true_iff in H. destruct H as [Hx Hr].
    destruct (ToString_convertible x Hx) as [sx Hs].
    cbn [gallery_forEach]. rewrite Hs. cbn [cbind]. apply IH. exact Hr.
Qed.

Lemma media_markup_convertible (mediaUrl mediaType : value) :
  convertible mediaUrl = true ->
  exists m, media_markup mediaUrl mediaType = Normal m.
Proof.
  intros H. destruct (ToString_convertible mediaUrl H) as [u Hu].
  unfold media_markup. destruct (strict_eq_string mediaType "video").
  - rewrite Hu. eexists. reflexivity.
  - destruct mediaUrl as [ | | b | n | x | d | items | c];
      try (rewrite Hu; eexists; reflexivity).
    cbn [convertible] in H.
    destruct (gallery_forEach_convertible items gallery_open H) as [g Hg].
    rewrite Hg. eexists. reflexivity.
Qed.

(** ** Claims about [addRice] *)

(** C5, as amended: for every entry of media type ['video'] whose fields
    convert to strings without markup-significant characters (no [<] in the
    user name, the title and the two counts, no double quote in the media
    reference and the link), [addRice] appends a card that holds exactly
    one [video] element, whose one [source] has the text of the media
    argument as its [src], and no [img] element; the media argument may be
    a single reference or a sequence. *)
Theorem addRice_video_one_player
    (username title mediaUrl redditUrl upvotes comments : value) (s : state) :
  plain_text username = true ->
  plain_text title = true ->
  plain_attr mediaUrl = true ->
  plain_attr redditUrl = true ->
  plain_text upvotes = true ->
  plain_text comments = true ->
  exists (card : element) (m : string),
    addRice username title mediaUrl (String_ "video") redditUrl upvotes comments s
    = (Normal tt, with_card s card)
    /\ ToString mediaUrl = Normal m
    /\ HTML.elements_by_tag "video" (innerHTML card)
       = [el "video" [("class", "rice-video"); ("controls", "")]]
    /\ List.map HTML.src (HTML.elements_by_tag "source" (innerHTML card)) = [Some m]
    /\ HTML.elements_by_tag "img" (innerHTML card) = [].
Proof.
  intros Hu Ht Hm Hr Hup Hcm.
  destruct (converts_without_text _ _ Hu) as (u & Eu & Qu).
  destruct (converts_without_text _ _ Ht) as (t & Et & Qt).
  destruct (converts_without_text _ _ Hm) as (m & Em & Qm).
  destruct (converts_without_text _ _ Hr) as (r & Er & Qr).
  destruct (converts_without_text _ _ Hup) as (up & Eup & Qup).
  destruct (converts_without_text _ _ Hcm) as (cm & Ecm & Qcm).
  exists (mkElement "div" "rice-card" (card_markup u t (video_markup m) r up cm)), m.
  split.
  { apply addRice_returns.
    apply rice_card_markup; try assumption.
    apply media_markup_video. exact Em. }
  split; [exact Em|].
  unfold HTML.elements_by_tag. cbn [innerHTML].
  rewrite (card_elements u t (video_markup m) r up cm (video_elements m)
             Qu Qt (scan_video m Qm) Qr Qup Qcm).
  repeat split.
Qed.

Lemma addRice_video_one_player_witness :
  exists (card : element) (m : string),
    addRice (String_ "alice") (String_ "gruvbox & i3 [sway]")
      (Array [String_ "https://v.redd.it/abc/DASH_720.mp4"; Null])
      (String_ "video") example_link (Number 120) (Number 14) blank_page
    = (Normal tt, with_card blank_page card)
    /\ m = "https://v.redd.it/abc/DASH_720.mp4,"
    /\ HTML.elements_by_tag "img" (innerHTML card) = [].
Proof.
  destruct (addRice_video_one_player
              (String_ "alice") (String_ "gruvbox & i3 [sway]")
              (Array [String_ "https://v.redd.it/abc/DASH_720.mp4"; Null])
              example_link (Number 120) (Number 14) blank_page
              eq_refl eq_refl eq_refl eq_refl eq_refl eq_refl)
    as (card & m & H1 & H2 & _ & _ & H3).
  exists card, m. split; [exact H1|]. split; [|exact H3].
  injection H2 as <-. reflexivity.
Defined.

(** C5 as stated fails: a title that holds markup puts an [img] element in
    the card of a video entry. *)
Lemma addRice_video_title_with_markup :
  exists card : element,
    addRice (String_ "alice") (String_ "<img src=x>") (String_ "clip.mp4")
      (String_ "video") example_link (Number 120) (Number 14) blank_page
    = (Normal tt, with_card blank_page card)
    /\ length (HTML.elements_by_tag "video" (innerHTML card)) = 1
    /\ length (HTML.elements_by_tag "img" (innerHTML card)) = 1.
Proof.
  eexists. split; [reflexivity|]. vm_compute. split; reflexivity.
Qed.




(** C7, as amended: [addRice] has no error path of its own, and for every
    entry whose fields are convertible to strings (strings, numbers,
    booleans, [null], [undefined] for a missing field, objects whose
    conversion returns, and arrays of these at any depth), whatever the
    media type is, the call returns and appends a card. *)
Theorem addRice_returns_on_convertible
    (username title mediaUrl mediaType redditUrl upvotes comments : value)
    (s : state) :
  convertible username = true ->
  convertible title = true ->
  convertible mediaUrl = true ->
  convertible redditUrl = true ->
  convertible upvotes = true ->
  convertible comments = true ->
  exists card : element,
    addRice username title mediaUrl mediaType redditUrl upvotes comments s
    = (Normal tt, with_card s card).
Proof.
  intros Hu Ht Hm Hr Hup Hcm.
  destruct (ToString_convertible _ Hu) as (u & Eu).
  destruct (ToString_convertible _ Ht) as (t & Et).
  destruct (media_markup_convertible mediaUrl mediaType Hm) as (m & Em).
  destruct (ToString_convertible _ Hr) as (r & Er).
  destruct (ToString_convertible _ Hup) as (up & Eup).
  destruct (ToString_convertible _ Hcm) as (cm & Ecm).
  eexists. apply addRice_returns. apply rice_card_markup; eassumption.
Qed.

Lemma addRice_returns_on_convertible_witness :
  exists card : element,
    addRice Undefined (Number 3) (Array [Null; Array []; Object (Some "[object Object]")])
      (Symbol "kind") (Boolean true) Undefined Undefined blank_page
    = (Normal tt, with_card blank_page card).
Proof.
  exact (addRice_returns_on_convertible
           Undefined (Number 3) (Array [Null; Array []; Object (Some "[object Object]")])
           (Symbol "kind") (Boolean true) Undefined Undefined blank_page
           eq_refl eq_refl eq_refl eq_refl eq_refl eq_refl).
Defined.

(** C7 as stated fails: a symbol as the user name makes the template
    literal throw a [TypeError], and nothing is appended. *)
Lemma addRice_throws_on_symbol :
  addRice (Symbol "id") (String_ "nord") (String_ "one.png") (String_ "image")
    example_link (Number 7) (Number 0) blank_page
  = (Throw (TypeError "Cannot convert a Symbol value to a string"), blank_page).
Proof. reflexivity. Qed.

(** C8, as amended: a call of [addRice] that returns has appended its card
    as the last child of the grid and changed nothing else of the page: the
    children that were there are the same, in the same places, and there
    is one more; a second call with the same arguments appends the same
    card once more, with no deduplication.  A call that throws leaves the
    page as it was. *)
Theorem addRice_appends_last
    (username title mediaUrl mediaType redditUrl upvotes comments : value)
    (s s' : state) (r : completion unit) :
  addRice username title mediaUrl mediaType redditUrl upvotes comments s = (r, s') ->
  match r with
  | Normal _ =>
      exists card : element,
        s' = with_card s card
        /\ riceGrid (dom s') = (riceGrid (dom s) ++ [card])%list
        /\ length (riceGrid (dom s')) = S (length (riceGrid (dom s)))
        /\ firstn (length (riceGrid (dom s))) (riceGrid (dom s')) = riceGrid (dom s)
        /\ addRice username title mediaUrl mediaType redditUrl upvotes comments s'
           = (Normal tt, with_card s' card)
        /\ riceGrid (dom (with_card s' card)) = (riceGrid (dom s) ++ [card; card])%list
  | Throw _ => s' = s
  end.
Proof.
  intros H.
  destruct (rice_card username title mediaUrl mediaType redditUrl upvotes comments)
    as [card|e] eqn:E.
  - rewrite (addRice_returns _ _ _ _ _ _ _ card s E) in H.
    injection H as <- <-. exists card.
    split; [reflexivity|]. split; [reflexivity|].
    cbn [with_card dom riceGrid].
    split; [rewrite length_app, Nat.add_comm; reflexivity|].
    split.
    { rewrite firstn_app, Nat.sub_diag, firstn_all. cbn. apply app_nil_r. }
    split; [apply addRice_returns; exact E|].
    rewrite <- app_assoc. reflexivity.
  - rewrite (addRice_throws _ _ _ _ _ _ _ e s E) in H.
    injection H as <- <-. reflexivity.
Qed.

Lemma addRice_appends_last_witness :
  exists card : element,
    riceGrid (dom (snd (addRice (String_ "bob") (String_ "nord") (String_ "one.png")
                          (String_ "image") example_link (Number 7) (Number 0)
                          blank_page)))
    = [card].
Proof.
  destruct (addRice_appends_last
              (String_ "bob") (String_ "nord") (String_ "one.png") (String_ "image")
              example_link (Number 7) (Number 0) blank_page _ _ eq_refl)
    as (card & _ & H & _).
  exists card. exact H.
Defined.

(** C8 as stated fails: a call whose gallery holds a symbol throws in the
    loop over the references, and the grid has as many children after the
    call as before. *)
Lemma addRice_gallery_with_symbol :
  let result :=
    addRice (String_ "bob") (String_ "nord") (Array [String_ "one.png"; Symbol "two"])
      (String_ "image") example_link (Number 7) (Number 0) blank_page in
  fst result = Throw (TypeError "Cannot convert a Symbol value to a string")
  /\ length (riceGrid (dom (snd result))) = length (riceGrid (dom blank_page)).
Proof. split; reflexivity. Qed.

(* ===================================================================== *)
(** * Further properties of the script *)
(* ===================================================================== *)

(** ** The submission flow as a whole *)

Lemma reactions_settled (outcome : settled unit) (s : state) :
  reactions outcome s =
  (Normal (Fulfilled tt),
   mkState (after_submission (dom s) outcome)
     (trace s ++ settlement_alert outcome
              ++ [SetDisabled false; SetTextContent "Submit Rice"])%list).
Proof.
  destruct outcome as [[]|e].
  - rewrite reactions_fulfilled. reflexivity.
  - rewrite reactions_rejected. reflexivity.
Qed.

Lemma page_eq_released (p : page) :
  released p (urlInput_value p) = p
  <-> submitBtn_disabled p = false /\ submitBtn_textContent p = "Submit Rice".
Proof.
  destruct p as [g v d t]. unfold released. cbn. split.
  - intros H. injection H as <- <-. split; reflexivity.
  - intros [-> ->]. reflexivity.
Qed.

(** A whole submission, from the call to the end of the reactions: the
    page that results differs from the page before the call in the button,
    which is enabled and labelled ["Submit Rice"] whatever it was, and, on
    fulfilment, in the input, which is empty; the trace holds exactly one
    call and one alert.  A rejected submission gives back the very page it
    started from exactly when the button was enabled and labelled
    ["Submit Rice"] at the start: the label is written, not saved and
    restored. *)
Theorem submission_cycle (s : state) (outcome : settled unit) :
  passes_validation (urlInput_value (dom s)) = true ->
  exists (tk : task) (s1 s2 : state),
    submitRice s = (Normal (Some tk), s1)
    /\ reactions outcome s1 = (Normal (Fulfilled tt), s2)
    /\ dom s2 = after_submission (dom s) outcome
    /\ trace s2 =
       (trace s
        ++ [SetDisabled true; SetTextContent "Submitting...";
            Call_createGitHubIssue (Str.trim (urlInput_value (dom s)));
            SetTimeout 1000]
        ++ settlement_alert outcome
        ++ [SetDisabled false; SetTextContent "Submit Rice"])%list
    /\ (forall e, outcome = Rejected e ->
        (dom s2 = dom s
         <-> submitBtn_disabled (dom s) = false
             /\ submitBtn_textContent (dom s) = "Submit Rice")).
Proof.
  intros H. eexists. eexists. eexists.
  split; [apply submitRice_dispatch; exact H|].
  split; [apply reactions_settled|].
  cbn [dom trace]. split; [destruct outcome; reflexivity|].
  split; [rewrite <- app_assoc; reflexivity|].
  intros e ->. unfold after_submission, submitting, released. cbn.
  apply page_eq_released.
Qed.

Lemma submission_cycle_witness :
  exists s2 : state,
    reactions (Rejected (Error_ "Network error")) (snd (submitRice example_state))
    = (Normal (Fulfilled tt), s2)
    /\ dom s2 = dom example_state.
Proof.
  destruct (submission_cycle example_state (Rejected (Error_ "Network error")) eq_refl)
    as (tk & s1 & s2 & H1 & H2 & _ & _ & H3).
  exists s2. split.
  - rewrite <- H2. f_equal. rewrite H1. reflexivity.
  - apply (H3 _ eq_refl). split; reflexivity.
Defined.

(** ** The [keypress] listener *)

(** A key other than Enter leaves the page and the trace as they are and
    nothing pending.  Enter calls [submitRice], which does not look at the
    button: pressed again while a request is in flight (the button is
    disabled), it passes validation again and calls [createGitHubIssue] a
    second time with the same URL; and when one of the two requests
    settles, the button is enabled although the other is still pending. *)
Theorem keypress_listener_dispatch (key : string) (s : state) :
  (key <> "Enter" -> keypress_listener key s = (Normal None, s))
  /\ (passes_validation (urlInput_value (dom s)) = true ->
      exists (tk1 tk2 : task) (s1 s2 : state),
        keypress_listener "Enter" s = (Normal (Some tk1), s1)
        /\ submitBtn_disabled (dom s1) = true
        /\ keypress_listener "Enter" s1 = (Normal (Some tk2), s2)
        /\ calls (trace s2)
           = (calls (trace s) ++ [Str.trim (urlInput_value (dom s));
                                  Str.trim (urlInput_value (dom s))])%list
        /\ forall outcome : settled unit,
             exists s3 : state,
               reactions outcome s2 = (Normal (Fulfilled tt), s3)
               /\ submitBtn_disabled (dom s3) = false).
Proof.
  split.
  - intros Hk. unfold keypress_listener.
    apply String.eqb_neq in Hk. rewrite Hk. reflexivity.
  - intros H. unfold keypress_listener.
    change (String.eqb "Enter" "Enter") with true. cbn iota.
    eexists. eexists. eexists. eexists.
    split; [apply submitRice_dispatch; exact H|].
    split; [reflexivity|].
    split; [apply submitRice_dispatch; exact H|].
    cbn [dom trace submitting urlInput_value]. split.
    + rewrite !calls_app. cbn. rewrite <- app_assoc. reflexivity.
    + intros outcome. rewrite reactions_settled. eexists.
      split; reflexivity.
Qed.

Lemma keypress_listener_dispatch_witness :
  keypress_listener "a" example_state = (Normal None, example_state)
  /\ exists (tk1 tk2 : task) (s1 s2 : state),
       keypress_listener "Enter" example_state = (Normal (Some tk1), s1)
       /\ keypress_listener "Enter" s1 = (Normal (Some tk2), s2)
       /\ calls (trace s2) = ["https://reddit.com/r/unixporn/comments/abc123";
                              "https://reddit.com/r/unixporn/comments/abc123"].
Proof.
  split.
  - apply (proj1 (keypress_listener_dispatch "a" example_state)). discriminate.
  - destruct (proj2 (keypress_listener_dispatch "a" example_state) eq_refl)
      as (tk1 & tk2 & s1 & s2 & H1 & _ & H2 & H3 & _).
    exists tk1, tk2, s1, s2. repeat split; assumption.
Defined.

(** ** Validation *)

Lemma drop_prefix_sound (p s r : string) :
  Str.drop_prefix p s = Some r -> s = p ++ r.
Proof.
  revert s. induction p as [|a p IH]; intros s H.
  - injection H as ->. reflexivity.
  - destruct s as [|b s]; [discriminate H|]. cbn in H.
    destruct (Ascii.eqb_spec a b) as [->|]; [|discriminate H].
    cbn. rewrite (IH s H). reflexivity.
Qed.

Lemma drop_prefix_complete (p r : string) : Str.drop_prefix p (p ++ r) = Some r.
Proof.
  induction p as [|a p IH]; [reflexivity|].
  cbn. rewrite Ascii.eqb_refl. exact IH.
Qed.

(** [includes] holds exactly of the strings that contain the substring. *)
Lemma includes_iff (s sub : string) :
  Str.includes s sub = true <-> exists a b, s = a ++ sub ++ b.
Proof.
  split.
  - induction s as [|c s IH]; cbn [Str.includes]; intros H.
    + rewrite orb_false_r in H. unfold Str.startsWith in H.
      destruct (Str.drop_prefix sub "") as [r|] eqn:E; [|discriminate H].
      exists "", r. exact (drop_prefix_sound _ _ _ E).
    + apply orb_true_iff in H. destruct H as [H|H].
      * unfold Str.startsWith in H.
        destruct (Str.drop_prefix sub (String c s)) as [r|] eqn:E; [|discriminate H].
        exists "", r. exact (drop_prefix_sound _ _ _ E).
      * destruct (IH H) as (a & b & ->). exists (String c a), b. reflexivity.
  - intros (a & b & ->). induction a as [|c a IH].
    + cbn [append]. destruct (sub ++ b) eqn:E; cbn [Str.includes];
        unfold Str.startsWith; rewrite <- E, drop_prefix_complete; reflexivity.
    + cbn [append Str.includes]. rewrite IH. apply orb_true_r.
Qed.

(** [submitRice] dispatches exactly when the trimmed value of the input
    contains ["reddit.com/r/unixporn"] somewhere: what precedes and follows
    the substring is not examined, and the emptiness guard rejects nothing
    that the substring guard would accept. *)
Theorem submitRice_dispatches_iff_substring (s : state) :
  (exists (tk : task) (s1 : state), submitRice s = (Normal (Some tk), s1))
  <-> exists a b : string,
        Str.trim (urlInput_value (dom s)) = a ++ "reddit.com/r/unixporn" ++ b.
Proof.
  rewrite <- includes_iff. split.
  - intros (tk & s1 & H).
    destruct (passes_validation (urlInput_value (dom s))) eqn:E.
    + apply passes_validation_guards in E. apply E.
    + rewrite (submitRice_abort s E) in H. discriminate H.
  - intros H.
    assert (E : passes_validation (urlInput_value (dom s)) = true).
    { unfold passes_validation. rewrite H, andb_true_r.
      apply includes_iff in H. destruct H as (a & b & ->).
      destruct a; reflexivity. }
    rewrite (submitRice_dispatch s E). eexists. eexists. reflexivity.
Qed.

(** ** White space in the input *)

Section WhiteSpace.

Import Str.

Lemma strip_one_member (w s : string) :
  In w white_space -> strip_one white_space (w ++ s) = Some s.
Proof.
  intros H. cbn in H.
  repeat (destruct H as [<-|H]; [reflexivity|]). contradiction H.
Qed.

Lemma append_length (a b : string) :
  String.length (a ++ b) = String.length a + String.length b.
Proof.
  induction a as [|c a IH]; [reflexivity|]. cbn. rewrite IH. reflexivity.
Qed.

Lemma strip_blank (s : string) :
  blank s ->
  forall fuel, String.length s <= fuel -> strip white_space fuel s = "".
Proof.
  induction 1 as [|w s Hw Hs IH]; intros fuel Hlen.
  - destruct fuel; reflexivity.
  - rewrite append_length in Hlen.
    assert (Hne : w <> "").
    { pose proof white_space_nonempty as Hall.
      rewrite Forall_forall in Hall. exact (Hall w Hw). }
    destruct fuel as [|fuel].
    + destruct w; [contradiction Hne; reflexivity | cbn in Hlen; lia].
    + cbn [strip]. rewrite (strip_one_member w s Hw). apply IH.
      destruct w; [contradiction Hne; reflexivity | cbn in Hlen; lia].
Qed.

Lemma trim_blank_input (s : string) : blank s -> trim s = "".
Proof.
  intros H. unfold trim, trimStart.
  rewrite (strip_blank s H (String.length s) (Nat.le_refl _)). reflexivity.
Qed.

(** The result of [strip] is what is left of the string: a suffix. *)
Lemma strip_suffix (ws : list string) (fuel : nat) (s : string) :
  exists y, s = y ++ strip ws fuel s.
Proof.
  revert s. induction fuel as [|fuel IH]; intros s; [exists ""; reflexivity|].
  cbn [strip]. destruct (strip_one ws s) as [r|] eqn:E; [|exists ""; reflexivity].
  assert (Hr : exists w, s = w ++ r).
  { clear IH. induction ws as [|w ws IHws]; [discriminate E|].
    cbn in E. destruct (drop_prefix w s) as [r'|] eqn:D.
    - injection E as ->. exists w. exact (drop_prefix_sound _ _ _ D).
    - exact (IHws E). }
  destruct Hr as [w ->]. destruct (IH r) as [y Hy].
  exists (w ++ y). rewrite append_assoc, <- Hy. reflexivity.
Qed.

Lemma rev_append_spec (s acc : string) : rev_append s acc = rev s ++ acc.
Proof.
  unfold rev. revert acc. induction s as [|c s IH]; intros acc; [reflexivity|].
  cbn [rev_append]. rewrite (IH (String c acc)), (IH (String c "")).
  rewrite append_assoc. reflexivity.
Qed.

Lemma rev_app (a b : string) : rev (a ++ b) = rev b ++ rev a.
Proof.
  induction a as [|c a IH].
  - cbn. rewrite append_nil_r. reflexivity.
  - unfold rev in *. cbn [append rev_append].
    rewrite (rev_append_spec (a ++ b)), (rev_append_spec a).
    unfold rev. rewrite IH, append_assoc. reflexivity.
Qed.

(** [trimEnd] keeps a prefix of the string. *)
Lemma trimEnd_prefix (s : string) : exists x, s = trimEnd s ++ x.
Proof.
  unfold trimEnd.
  destruct (strip_suffix (List.map rev white_space) (String.length s) (rev s))
    as [y Hy].
  exists (rev y). rewrite <- rev_app, <- Hy, rev_involutive. reflexivity.
Qed.

Lemma drop_prefix_app (w p r x : string) :
  drop_prefix w p = Some r -> drop_prefix w (p ++ x) = Some (r ++ x).
Proof.
  revert p. induction w as [|a w IH]; intros p H.
  - injection H as ->. reflexivity.
  - destruct p as [|b p]; [discriminate H|]. cbn in H |- *.
    destruct (Ascii.eqb a b); [exact (IH p H) | discriminate H].
Qed.

Lemma strip_one_app (ws : list string) (p x : string) :
  strip_one ws (p ++ x) = None -> strip_one ws p = None.
Proof.
  induction ws as [|w ws IH]; [reflexivity|]. cbn. intros H.
  destruct (drop_prefix w p) as [r|] eqn:D.
  - rewrite (drop_prefix_app w p r x D) in H. discriminate H.
  - destruct (drop_prefix w (p ++ x)); [discriminate H | exact (IH H)].
Qed.

Lemma trim_exhausts (s : string) :
  starts_with_white_space (trim s) = false
  /\ ends_with_white_space (trim s) = false.
Proof.
  unfold starts_with_white_space, ends_with_white_space, trim. split.
  - destruct (trimEnd_prefix (trimStart s)) as [x Hx].
    pose proof (trimStart_exhausts s) as H. rewrite Hx in H.
    rewrite (strip_one_app _ _ _ H). reflexivity.
  - rewrite trimEnd_exhausts. reflexivity.
Qed.

End WhiteSpace.

(** An input made of white space only (spaces, tabs, line breaks, no-break
    and other Unicode spaces, in any number) is rejected with the alert
    ["Please enter a Reddit URL"], never with the other one; the page is
    unchanged and nothing is dispatched. *)
Theorem submitRice_blank_input (s : state) :
  blank (urlInput_value (dom s)) ->
  submitRice s
  = (Normal None,
     mkState (dom s) (trace s ++ [Alert "Please enter a Reddit URL"])%list).
Proof.
  intros H.
  assert (E : passes_validation (urlInput_value (dom s)) = false).
  { unfold passes_validation. rewrite (trim_blank_input _ H). reflexivity. }
  rewrite (submitRice_abort s E), (trim_blank_input _ H). reflexivity.
Qed.

Lemma submitRice_blank_input_witness :
  let s := mkState (mkPage [] (Str.bytes [32; 194; 160; 9; 226; 128; 175; 10])
                           false "Submit Rice") [] in
  blank (urlInput_value (dom s))
  /\ submitRice s = (Normal None, mkState (dom s) [Alert "Please enter a Reddit URL"]).
Proof.
  assert (H : blank (Str.bytes [32; 194; 160; 9; 226; 128; 175; 10])).
  { apply (blank_more (Str.bytes [32])); [vm_compute; tauto|].
    apply (blank_more (Str.bytes [194; 160])); [vm_compute; tauto|].
    apply (blank_more (Str.bytes [9])); [vm_compute; tauto|].
    apply (blank_more (Str.bytes [226; 128; 175])); [vm_compute; tauto|].
    apply (blank_more (Str.bytes [10])); [vm_compute; tauto|].
    apply blank_empty. }
  split; [exact H|].
  exact (submitRice_blank_input
           (mkState (mkPage [] (Str.bytes [32; 194; 160; 9; 226; 128; 175; 10])
                            false "Submit Rice") []) H).
Defined.

(** The URL that [submitRice] hands to [createGitHubIssue] neither starts
    nor ends with white space, whatever surrounds it in the input. *)
Theorem submitRice_dispatches_trimmed_url (s s1 : state) (tk : task) :
  submitRice s = (Normal (Some tk), s1) ->
  exists url : string,
    calls (trace s1) = (calls (trace s) ++ [url])%list
    /\ starts_with_white_space url = false
    /\ ends_with_white_space url = false.
Proof.
  intros H.
  destruct (passes_validation (urlInput_value (dom s))) eqn:E.
  - rewrite (submitRice_dispatch s E) in H. injection H as _ <-.
    exists (Str.trim (urlInput_value (dom s))).
    split; [|apply trim_exhausts].
    cbn [trace]. rewrite calls_app. reflexivity.
  - rewrite (submitRice_abort s E) in H. discriminate H.
Qed.

Lemma submitRice_dispatches_trimmed_url_witness :
  exists url : string,
    calls (trace (snd (submitRice example_state))) = [url]
    /\ ends_with_white_space url = false.
Proof.
  destruct (submitRice_dispatches_trimmed_url example_state _ _ eq_refl)
    as (url & H1 & _ & H2).
  exists url. split; [exact H1 | exact H2].
Defined.

(** ** The gallery and the submission flow do not interfere *)



(** ** A sequence of calls of [addRice] *)

Lemma fold_with_card_grid (cards : list element) (s : state) :
  riceGrid (dom (fold_left with_card cards s)) = (riceGrid (dom s) ++ cards)%list.
Proof.
  revert s. induction cards as [|c cards IH]; intros s.
  - cbn. rewrite app_nil_r. reflexivity.
  - cbn [fold_left]. rewrite IH. cbn [with_card dom riceGrid].
    rewrite <- app_assoc. reflexivity.
Qed.

(** Calls of [addRice] made one after the other append their cards in the
    order of the calls, after the children that the grid had.  The first
    entry that cannot be converted to strings throws: the cards of the
    entries before it stay in the grid, and the entries after it are not
    rendered. *)
Theorem addRice_each_in_order (es : list entry) (s : state) :
  addRice_each es s
  = (match first_throw es with
     | None => Normal tt
     | Some e => Throw e
     end,
     fold_left with_card (cards_before_throw es) s)
  /\ riceGrid (dom (snd (addRice_each es s)))
     = (riceGrid (dom s) ++ cards_before_throw es)%list.
Proof.
  assert (H : forall s0,
            addRice_each es s0
            = (match first_throw es with
               | None => Normal tt
               | Some e => Throw e
               end,
               fold_left with_card (cards_before_throw es) s0)).
  { induction es as [|e es IH]; intros s0; [reflexivity|].
    cbn [addRice_each first_throw cards_before_throw]. unfold bind, addRice_entry.
    destruct (entry_card e) as [card|err] eqn:E; unfold entry_card in E.
    - rewrite (addRice_returns _ _ _ _ _ _ _ card s0 E). apply IH.
    - rewrite (addRice_throws _ _ _ _ _ _ _ err s0 E). reflexivity. }
  split; [apply H|]. rewrite H. cbn [snd]. apply fold_with_card_grid.
Qed.

(** ** The elements of a card *)

Section Card.

Import HTML.

Ltac scan_piece :=
  first [ apply scan_text; assumption
        | apply scan_quoted; assumption
        | eassumption
        | vm_compute; reflexivity ].

Ltac scan_pieces :=
  lazymatch goal with
  | |- scan _ (_ ++ _) = _ =>
      eapply scan_cat; [ scan_piece | scan_pieces | cbn [app]; reflexivity ]
  | |- _ => scan_piece
  end.

(** The elements that the tokenizer finds in a card whose title is markup
    that it leaves in the data state (used below for a title that holds one
    image tag). *)
Lemma card_elements_title (u t m r up cm : string) (ts media : list tag) :
  Str.mem "<" u = false ->
  scan Data t = (Data, ts) ->
  scan Data m = (Data, media) ->
  Str.mem Str.dq r = false ->
  Str.mem "<" up = false ->
  Str.mem "<" cm = false ->
  elements (card_markup u t m r up cm)
  = (firstn 3 header_elements ++ ts ++ skipn 3 header_elements
     ++ media ++ footer_elements r)%list.
Proof.
  intros Hu Ht Hm Hr Hup Hcm.
  assert (H : scan Data (card_markup u t m r up cm)
              = (Data, (firstn 3 header_elements ++ ts ++ skipn 3 header_elements
                        ++ media ++ footer_elements r)%list)).
  { unfold card_markup. scan_pieces. }
  unfold elements. rewrite H. reflexivity.
Qed.

Lemma media_markup_scan (mediaUrl mediaType : value) :
  forallb plain_attr (media_sources mediaUrl mediaType) = true ->
  exists (m : string) (urls : list string),
    media_markup mediaUrl mediaType = Normal m
    /\ texts_of (media_sources mediaUrl mediaType) urls
    /\ scan Data m = (Data, media_elements mediaUrl mediaType urls).
Proof.
  intros H. destruct (plain_attr_texts _ H) as (urls & Ht & Hq).
  unfold media_markup, media_sources, media_elements in *.
  destruct (strict_eq_string mediaType "video").
  - inversion Ht as [|v u l l' Hv Hnil]; subst. inversion Hnil; subst.
    inversion Hq as [|u' l Hu _]; subst.
    rewrite Hv. cbn [cbind]. exists (video_markup u), [u].
    split; [reflexivity|]. split; [exact Ht|]. apply scan_video. exact Hu.
  - assert (Hone : media_refs mediaUrl = [mediaUrl] ->
              exists (m : string) (urls0 : list string),
                cbind (ToString mediaUrl) (fun u => Normal (single_image u)) = Normal m
                /\ texts_of (media_refs mediaUrl) urls0
                /\ scan Data m
                   = (Data, List.map (image_element "Desktop Screenshot") urls0)).
    { intros Hr. rewrite Hr in Ht.
      inversion Ht as [|v u l l' Hv Hnil]; subst. inversion Hnil; subst.
      inversion Hq as [|u' l Hu _]; subst.
      rewrite Hv. cbn [cbind]. exists (single_image u), [u].
      split; [reflexivity|]. split; [rewrite Hr; exact Ht|].
      apply scan_single_image. exact Hu. }
    destruct mediaUrl as [ | | b | n | x | d | items | c];
      try (apply Hone; reflexivity).
    cbn [media_refs Array_isArray] in *.
    rewrite (gallery_forEach_texts items urls gallery_open Ht). cbn [cbind].
    eexists. exists urls. split; [reflexivity|]. split; [exact Ht|].
    apply scan_gallery. exact Hq.
Qed.

Lemma media_elements_no_link (mediaUrl mediaType : value) (urls : list string) :
  filter (is_tag "a") (media_elements mediaUrl mediaType urls) = [].
Proof.
  unfold media_elements.
  destruct (strict_eq_string mediaType "video"); [|destruct (Array_isArray mediaUrl)].
  - induction urls as [|u urls IH]; [reflexivity|]. exact IH.
  - change (filter (is_tag "a") (gallery_element :: ?l)) with (filter (is_tag "a") l).
    induction urls as [|u urls IH]; [reflexivity|]. exact IH.
  - induction urls as [|u urls IH]; [reflexivity|]. exact IH.
Qed.

Lemma attr_exact_text_quote (x : string) :
  attr_exact_text x = true -> Str.mem Str.dq x = false.
Proof.
  unfold attr_exact_text. intros H.
  apply andb_true_iff in H. destruct H as [H _].
  apply andb_true_iff in H. destruct H as [H _].
  apply andb_true_iff in H. destruct H as [H _].
  apply negb_true_iff. exact H.
Qed.

Lemma exact_attr_plain (v : value) : exact_attr v = true -> plain_attr v = true.
Proof.
  unfold exact_attr, plain_attr, converts_without.
  destruct (ToString v) as [x|e]; [|discriminate].
  intros H. apply negb_true_iff. apply attr_exact_text_quote. exact H.
Qed.

Lemma exact_attrs_plain (vs : list value) :
  forallb exact_attr vs = true -> forallb plain_attr vs = true.
Proof.
  induction vs as [|v vs IH]; [reflexivity|]. cbn. intros H.
  apply andb_true_iff in H. destruct H as [Hv Hvs].
  rewrite (exact_attr_plain v Hv), (IH Hvs). reflexivity.
Qed.

(** A title made of text, one [img] tag with a [src] and an [onerror]
    attribute, and text: the tokenizer comes back to the data state with
    that one element. *)
Lemma scan_title_image (lead image_src handler rest : string) :
  Str.mem "<" lead = false ->
  Str.mem "<" rest = false ->
  attr_exact_text image_src = true ->
  attr_exact_text handler = true ->
  scan Data (lead ++ Str.q "<img src='" ++ image_src ++ Str.q "' onerror='"
             ++ handler ++ Str.q "'>" ++ rest)
  = (Data, [el "img" [("src", image_src); ("onerror", handler)]]).
Proof.
  intros Hl Hr Hs Hh.
  apply attr_exact_text_quote in Hs. apply attr_exact_text_quote in Hh.
  scan_pieces.
Qed.

End Card.

(** The elements of the card of an entry whose fields hold no
    markup-significant character (no [<] in the user name, the title and
    the two counts; no double quote, [&], U+0000 or carriage return in the
    media sources and the link), whatever the media type is: the four
    [div]s that open the header and the media container, the elements of
    the media, then the link, the [div] of the counts and its two [span]s,
    in this order and with these attributes.  In particular the card has
    exactly one link; its [href] is the text of the source URL and its
    target is [_blank]. *)
Theorem addRice_card_structure
    (username title mediaUrl mediaType redditUrl upvotes comments : value)
    (s : state) :
  plain_text username = true ->
  plain_text title = true ->
  forallb exact_attr (media_sources mediaUrl mediaType) = true ->
  exact_attr redditUrl = true ->
  plain_text upvotes = true ->
  plain_text comments = true ->
  exists (card : element) (urls : list string) (r : string),
    addRice username title mediaUrl mediaType redditUrl upvotes comments s
    = (Normal tt, with_card s card)
    /\ tagName card = "div" /\ className card = "rice-card"
    /\ texts_of (media_sources mediaUrl mediaType) urls
    /\ ToString redditUrl = Normal r
    /\ HTML.elements (innerHTML card)
       = (header_elements ++ media_elements mediaUrl mediaType urls
          ++ footer_elements r)%list
    /\ HTML.elements_by_tag "a" (innerHTML card)
       = [el "a" [("href", r); ("class", "post-link"); ("target", "_blank")]].
Proof.
  intros Hu Ht Hm Hr Hup Hcm.
  apply exact_attrs_plain in Hm. apply exact_attr_plain in Hr.
  destruct (converts_without_text _ _ Hu) as (u & Eu & Qu).
  destruct (converts_without_text _ _ Ht) as (t & Et & Qt).
  destruct (media_markup_scan _ _ Hm) as (m & urls & Em & Eurls & Sm).
  destruct (converts_without_text _ _ Hr) as (r & Er & Qr).
  destruct (converts_without_text _ _ Hup) as (up & Eup & Qup).
  destruct (converts_without_text _ _ Hcm) as (cm & Ecm & Qcm).
  exists (mkElement "div" "rice-card" (card_markup u t m r up cm)), urls, r.
  split.
  { apply addRice_returns. apply rice_card_markup; assumption. }
  split; [reflexivity|]. split; [reflexivity|].
  split; [exact Eurls|]. split; [exact Er|].
  unfold HTML.elements_by_tag. cbn [innerHTML].
  rewrite (card_elements u t m r up cm _ Qu Qt Sm Qr Qup Qcm).
  split; [reflexivity|].
  rewrite !filter_app, media_elements_no_link. reflexivity.
Qed.

Lemma addRice_card_structure_witness :
  exists card : element,
    addRice (String_ "bob") (String_ "nord") (Array [String_ "one.png"; Number 2])
      (String_ "image") example_link (Number 7) (Number 0) blank_page
    = (Normal tt, with_card blank_page card)
    /\ List.map HTML.name (HTML.elements (innerHTML card))
       = ["div"; "div"; "div"; "div"; "div"; "img"; "img"; "a"; "div"; "span"; "span"].
Proof.
  destruct (addRice_card_structure
              (String_ "bob") (String_ "nord") (Array [String_ "one.png"; Number 2])
              (String_ "image") example_link (Number 7) (Number 0) blank_page
              eq_refl eq_refl eq_refl eq_refl eq_refl eq_refl)
    as (card & urls & r & H1 & _ & _ & H2 & _ & H3 & _).
  exists card. split; [exact H1|]. rewrite H3.
  inversion H2 as [|v1 u1 l1 r1 E1 T1]; subst.
  inversion T1 as [|v2 u2 l2 r2 E2 T2]; subst.
  inversion T2; subst. reflexivity.
Defined.

(** An image tag in the title becomes an element of the card.  When the
    title is text, then an [img] tag with a [src] and an [onerror]
    attribute, then text (the texts without [<], the two attribute values
    without double quote, [&], U+0000 and carriage return), and the other
    fields hold no markup-significant character, the card has, after the
    start tag of the title [div], an [img] element with that [src] and
    that [onerror], beside its own elements, whatever the media type is. *)
Theorem addRice_title_image_is_created
    (username mediaUrl mediaType redditUrl upvotes comments : value)
    (s : state) (lead image_src handler rest : string) :
  Str.mem "<" lead = false ->
  Str.mem "<" rest = false ->
  attr_exact_text image_src = true ->
  attr_exact_text handler = true ->
  plain_text username = true ->
  forallb exact_attr (media_sources mediaUrl mediaType) = true ->
  exact_attr redditUrl = true ->
  plain_text upvotes = true ->
  plain_text comments = true ->
  exists (card : element) (urls : list string) (r : string),
    addRice username
      (String_ (lead ++ Str.q "<img src='" ++ image_src ++ Str.q "' onerror='"
                ++ handler ++ Str.q "'>" ++ rest))
      mediaUrl mediaType redditUrl upvotes comments s
    = (Normal tt, with_card s card)
    /\ texts_of (media_sources mediaUrl mediaType) urls
    /\ ToString redditUrl = Normal r
    /\ HTML.elements (innerHTML card)
       = (firstn 3 header_elements
          ++ [el "img" [("src", image_src); ("onerror", handler)]]
          ++ skipn 3 header_elements
          ++ media_elements mediaUrl mediaType urls ++ footer_elements r)%list.
Proof.
  intros Hl Hrest Hs Hh Hu Hm Hr Hup Hcm.
  apply exact_attrs_plain in Hm. apply exact_attr_plain in Hr.
  destruct (converts_without_text _ _ Hu) as (u & Eu & Qu).
  destruct (media_markup_scan _ _ Hm) as (m & urls & Em & Eurls & Sm).
  destruct (converts_without_text _ _ Hr) as (r & Er & Qr).
  destruct (converts_without_text _ _ Hup) as (up & Eup & Qup).
  destruct (converts_without_text _ _ Hcm) as (cm & Ecm & Qcm).
  eexists. exists urls, r.
  split.
  { apply addRice_returns. apply rice_card_markup; try eassumption. reflexivity. }
  split; [exact Eurls|]. split; [exact Er|].
  cbn [innerHTML]. apply card_elements_title; try assumption.
  apply scan_title_image; assumption.
Qed.

Lemma addRice_title_image_is_created_witness :
  exists card : element,
    addRice (String_ "bob") (String_ (Str.q "nord <img src='x' onerror='alert(1)'> i3"))
      (String_ "one.png") (String_ "image") example_link (Number 7) (Number 0)
      blank_page
    = (Normal tt, with_card blank_page card)
    /\ List.map (fun i => HTML.attr "onerror" (HTML.attrs i))
         (HTML.elements_by_tag "img" (innerHTML card))
       = [Some "alert(1)"; None].
Proof.
  destruct (addRice_title_image_is_created
              (String_ "bob") (String_ "one.png") (String_ "image") example_link
              (Number 7) (Number 0) blank_page "nord " "x" "alert(1)" " i3"
              eq_refl eq_refl eq_refl eq_refl eq_refl eq_refl eq_refl eq_refl eq_refl)
    as (card & urls & r & H1 & H2 & _ & H3).
  exists card. split; [exact H1|].
  unfold HTML.elements_by_tag. rewrite H3.
  inversion H2 as [|v1 u1 l1 r1 E1 T1]; subst. inversion T1; subst.
  reflexivity.
Defined.

(** ** No escaping *)

Lemma includes_middle (a t b : string) : Str.includes (a ++ t ++ b) t = true.
Proof. apply includes_iff. exists a, b. reflexivity. Qed.

Lemma includes_trans (s m t : string) :
  Str.includes s m = true -> Str.includes m t = true -> Str.includes s t = true.
Proof.
  rewrite !includes_iff. intros (a & b & ->) (c & d & ->).
  exists (a ++ c), (d ++ b). rewrite !append_assoc. reflexivity.
Qed.

Lemma includes_after (a s t : string) :
  Str.includes s t = true -> Str.includes (a ++ s) t = true.
Proof.
  rewrite !includes_iff. intros (c & d & ->).
  exists (a ++ c), d. rewrite !append_assoc. reflexivity.
Qed.

Lemma includes_before (s b t : string) :
  Str.includes s t = true -> Str.includes (s ++ b) t = true.
Proof.
  rewrite !includes_iff. intros (c & d & ->).
  exists c, (d ++ b). rewrite !append_assoc. reflexivity.
Qed.

Lemma includes_head (t b : string) : Str.includes (t ++ b) t = true.
Proof. apply (includes_middle "" t b). Qed.

Lemma rice_card_inversion
    (username title mediaUrl mediaType redditUrl upvotes comments : value)
    (card : element) :
  rice_card username title mediaUrl mediaType redditUrl upvotes comments = Normal card ->
  exists m u t r up cm : string,
    media_markup mediaUrl mediaType = Normal m
    /\ ToString username = Normal u
    /\ ToString title = Normal t
    /\ ToString redditUrl = Normal r
    /\ ToString upvotes = Normal up
    /\ ToString comments = Normal cm
    /\ card = mkElement "div" "rice-card" (card_markup u t m r up cm).
Proof.
  unfold rice_card. intros H.
  destruct (media_markup mediaUrl mediaType) as [m|]; [|discriminate H].
  destruct (ToString username) as [u|]; [|discriminate H].
  destruct (ToString title) as [t|]; [|discriminate H].
  destruct (ToString redditUrl) as [r|]; [|discriminate H].
  destruct (ToString upvotes) as [up|]; [|discriminate H].
  destruct (ToString comments) as [cm|]; [|discriminate H].
  cbn in H. injection H as <-.
  exists m, u, t, r, up, cm. repeat split.
Qed.

Lemma gallery_forEach_inversion (items : list value) (acc g : string) :
  gallery_forEach items acc = Normal g ->
  exists urls, texts_of items urls /\ g = acc ++ gallery_images urls.
Proof.
  revert acc. induction items as [|x items IH]; intros acc H.
  - cbn in H. injection H as <-. exists []. split; [constructor|].
    cbn. rewrite append_nil_r. reflexivity.
  - cbn [gallery_forEach] in H. destruct (ToString x) as [u|] eqn:E; [|discriminate H].
    cbn [cbind] in H. destruct (IH _ H) as (urls & Ht & ->).
    exists (u :: urls). split; [constructor; assumption|].
    cbn [gallery_images]. rewrite append_assoc. reflexivity.
Qed.

Lemma gallery_images_include (urls : list string) (u : string) :
  In u urls -> Str.includes (gallery_images urls) u = true.
Proof.
  induction urls as [|v urls IH]; intros H; [contradiction H|].
  cbn [gallery_images]. destruct H as [->|H].
  - apply includes_before. unfold gallery_image. apply includes_middle.
  - apply includes_after. exact (IH H).
Qed.

Lemma texts_of_in (items : list value) (urls : list string) (v : value) :
  texts_of items urls -> In v items ->
  exists u, ToString v = Normal u /\ In u urls.
Proof.
  induction 1 as [|x u items urls Hx _ IH]; intros Hv; [contradiction Hv|].
  destruct Hv as [<-|Hv].
  - exists u. split; [exact Hx | left; reflexivity].
  - destruct (IH Hv) as (u' & E & I). exists u'. split; [exact E | right; exact I].
Qed.

Lemma media_markup_includes (mediaUrl mediaType : value) (m : string) (v : value) :
  media_markup mediaUrl mediaType = Normal m ->
  In v (media_sources mediaUrl mediaType) ->
  exists text, ToString v = Normal text /\ Str.includes m text = true.
Proof.
  unfold media_markup, media_sources. intros H Hv.
  assert (Hone : forall k1 k2 : string,
            cbind (ToString mediaUrl) (fun u => Normal (k1 ++ u ++ k2)) = Normal m ->
            In v [mediaUrl] ->
            exists text, ToString v = Normal text /\ Str.includes m text = true).
  { intros k1 k2 H1 [<-|[]].
    destruct (ToString mediaUrl) as [u|]; [|discriminate H1].
    cbn in H1. injection H1 as <-. exists u. split; [reflexivity|].
    apply includes_middle. }
  destruct (strict_eq_string mediaType "video").
  - exact (Hone _ _ H Hv).
  - destruct mediaUrl as [ | | b | n | x | d | items | c];
      try exact (Hone _ _ H Hv).
    clear Hone. cbn [media_refs] in Hv.
    destruct (gallery_forEach items gallery_open) as [g|] eqn:G; [|discriminate H].
    cbn in H. injection H as <-.
    destruct (gallery_forEach_inversion _ _ _ G) as (urls & Ht & ->).
    destruct (texts_of_in _ _ _ Ht Hv) as (u & E & I).
    exists u. split; [exact E|].
    apply includes_before, includes_after, gallery_images_include. exact I.
Qed.

(** Nothing is escaped: the text of every field that a returning call of
    [addRice] converts (user name, title, link, the two counts and every
    media source) occurs as it is in the markup assigned to the
    [innerHTML] of the card. *)
Theorem addRice_interpolates_verbatim
    (username title mediaUrl mediaType redditUrl upvotes comments : value)
    (s s' : state) :
  addRice username title mediaUrl mediaType redditUrl upvotes comments s
  = (Normal tt, s') ->
  exists card : element,
    s' = with_card s card
    /\ forall v : value,
         In v ([username; title; redditUrl; upvotes; comments]
               ++ media_sources mediaUrl mediaType)%list ->
         exists text : string,
           ToString v = Normal text
           /\ Str.includes (innerHTML card) text = true.
Proof.
  intros H.
  destruct (rice_card username title mediaUrl mediaType redditUrl upvotes comments)
    as [card|e] eqn:E.
  2:{ rewrite (addRice_throws _ _ _ _ _ _ _ e s E) in H. discriminate H. }
  rewrite (addRice_returns _ _ _ _ _ _ _ card s E) in H. injection H as <-.
  exists card. split; [reflexivity|].
  destruct (rice_card_inversion _ _ _ _ _ _ _ _ E)
    as (m & u & t & r & up & cm & Em & Eu & Et & Er & Eup & Ecm & ->).
  cbn [innerHTML]. intros v Hv.
  assert (Hm : Str.includes (card_markup u t m r up cm) m = true).
  { unfold card_markup. repeat first [apply includes_head | apply includes_after]. }
  cbn [app In] in Hv.
  destruct Hv as [<-|[<-|[<-|[<-|[<-|Hv]]]]].
  - exists u. split; [exact Eu|]. unfold card_markup.
    repeat first [apply includes_head | apply includes_after].
  - exists t. split; [exact Et|]. unfold card_markup.
    repeat first [apply includes_head | apply includes_after].
  - exists r. split; [exact Er|]. unfold card_markup.
    repeat first [apply includes_head | apply includes_after].
  - exists up. split; [exact Eup|]. unfold card_markup.
    repeat first [apply includes_head | apply includes_after].
  - exists cm. split; [exact Ecm|]. unfold card_markup.
    repeat first [apply includes_head | apply includes_after].
  - destruct (media_markup_includes _ _ m v Em Hv) as (text & Ev & Iv).
    exists text. split; [exact Ev|]. exact (includes_trans _ _ _ Hm Iv).
Qed.

Lemma addRice_interpolates_verbatim_witness :
  exists card : element,
    snd (addRice (String_ "bob") (String_ "a <b> & c") (Array [String_ "one.png"])
           (String_ "image") example_link (Number 7) (Number 0) blank_page)
    = with_card blank_page card
    /\ Str.includes (innerHTML card) "a <b> & c" = true.
Proof.
  destruct (addRice_interpolates_verbatim
              (String_ "bob") (String_ "a <b> & c") (Array [String_ "one.png"])
              (String_ "image") example_link (Number 7) (Number 0) blank_page _
              eq_refl)
    as (card & H1 & H2).
  exists card. split; [exact H1|].
  destruct (H2 (String_ "a <b> & c") (or_intror (or_introl eq_refl)))
    as (text & E & I).
  injection E as <-. exact I.
Defined.

(** ** After a fulfilled submission *)

(** Once a submission has been fulfilled the input is empty, so a further
    trigger, as long as nothing has been typed, does not submit the same
    URL again: it ends at the first guard with the alert
    ["Please enter a Reddit URL"], and [createGitHubIssue] has been called
    once in all. *)
Theorem submitRice_after_success (s : state) :
  passes_validation (urlInput_value (dom s)) = true ->
  exists (tk : task) (s1 s2 : state),
    submitRice s = (Normal (Some tk), s1)
    /\ reactions (Fulfilled tt) s1 = (Normal (Fulfilled tt), s2)
    /\ submitRice s2
       = (Normal None,
          mkState (dom s2) (trace s2 ++ [Alert "Please enter a Reddit URL"])%list)
    /\ calls (trace (snd (submitRice s2)))
       = (calls (trace s) ++ [Str.trim (urlInput_value (dom s))])%list.
Proof.
  intros H. eexists. eexists. eexists.
  split; [apply submitRice_dispatch; exact H|].
  split; [apply reactions_fulfilled|].
  assert (E : forall (p : page) (tr : list event),
            submitRice (mkState (released p "") tr)
            = (Normal None,
               mkState (released p "") (tr ++ [Alert "Please enter a Reddit URL"])%list)).
  { intros p tr. exact (submitRice_abort (mkState (released p "") tr) eq_refl). }
  rewrite E. split; [reflexivity|].
  cbn [snd trace]. rewrite !calls_app. cbn. rewrite !app_nil_r. reflexivity.
Qed.

Lemma submitRice_after_success_witness :
  exists s2 : state,
    reactions (Fulfilled tt) (snd (submitRice example_state))
    = (Normal (Fulfilled tt), s2)
    /\ fst (submitRice s2) = Normal None.
Proof.
  destruct (submitRice_after_success example_state eq_refl)
    as (tk & s1 & s2 & H1 & H2 & H3 & _).
  exists s2. split.
  - rewrite H1. exact H2.
  - rewrite H3. reflexivity.
Defined.

(** ** The submission flow over the placeholder *)

(** With [createGitHubIssue] as it is, a dispatched submission is left with
    a timer of 1000 ms and ends, for every number that [Math.random()] can
    return, in one of two ways: above the literal [0.1], the success alert
    and an empty input; otherwise the alert
    ["Error submitting rice: Network error"] and the input as it was.  No
    other message can appear, and in both cases the button is released. *)
Theorem submitRice_over_placeholder (s : state) (random : Q) :
  passes_validation (urlInput_value (dom s)) = true ->
  exists (tk : task) (s1 s2 : state),
    submitRice s = (Normal (Some tk), s1)
    /\ after tk = 1000%Z
    /\ run tk random s1 = (Normal (Fulfilled tt), s2)
    /\ ((literal_0_1 < random)%Q
        /\ dom s2 = released (dom s) ""
        /\ trace s2 = (trace s1 ++ [Alert success_text; SetValue "";
                                    SetDisabled false; SetTextContent "Submit Rice"])%list
        \/ (random <= literal_0_1)%Q
           /\ dom s2 = released (dom s) (urlInput_value (dom s))
           /\ trace s2 = (trace s1 ++ [Alert "Error submitting rice: Network error";
                                       SetDisabled false;
                                       SetTextContent "Submit Rice"])%list).
Proof.
  intros H.
  destruct (Qlt_le_dec literal_0_1 random) as [Hlt|Hle];
    eexists; eexists; eexists;
    (split; [apply submitRice_dispatch; exact H|]);
    (split; [reflexivity|]); cbn [run].
  - rewrite (timer_callback_resolves random Hlt).
    split; [apply reactions_fulfilled|]. left. repeat split. exact Hlt.
  - rewrite (timer_callback_rejects random Hle).
    split; [apply reactions_rejected|]. right. repeat split. exact Hle.
Qed.

Lemma submitRice_over_placeholder_witness :
  exists (tk : task) (s1 s2 : state),
    submitRice example_state = (Normal (Some tk), s1)
    /\ run tk (1 # 10)%Q s1 = (Normal (Fulfilled tt), s2)
    /\ urlInput_value (dom s2) = urlInput_value (dom example_state).
Proof.
  destruct (submitRice_over_placeholder example_state (1 # 10)%Q eq_refl)
    as (tk & s1 & s2 & H1 & _ & H2 & [(Hlt & _)|(_ & H3 & _)]).
  - exfalso. revert Hlt. unfold Qlt. cbn. lia.
  - exists tk, s1, s2. repeat split; [exact H1 | exact H2 | rewrite H3; reflexivity].
Defined.
